(** * BluffBot: the adaptive opponent and the round resolver of [engine.py]

    A shallow embedding of [engine.py] and the properties of its belief
    model, decision policy, round resolver, opponent turn and termination.

    Conventions of the embedding.
    - Python [int] is [Z]; the card hand, a Python [list], is [list Z].
    - The dictionary [context_stats] is a [gmap] from the key tuple
      (bucket, claim) to the tuple (bluff_count, total_count).
    - Probabilities are Python floats in the source.  They are embedded as the
      exact rationals ([Q]) denoted by the source expressions: the literal
      [0.35] is [35/100] and [(b + 1) / (t + 3)] is the quotient of the two
      integers.  Numeric equality of two probabilities is [Qeq] ([==]).
      The module [Binary64] evaluates the same expressions in double
      precision, and the last section compares the two.
    - A Python [str] is the string of its UTF-8 bytes.
    - The ambient generator [np.random] is an explicit record of draws handed
      to every turn.
    - An exception is an outcome of its own that carries the state the
      interpreter has reached when it is raised, so that a partial mutation
      stays visible. *)

From Stdlib Require Import ZArith QArith Qround Qabs List String Lia Permutation Sorted.
From Stdlib Require Import SpecFloat Lqa.
From stdpp Require Import gmap strings list pretty.
Import ListNotations.

Local Open Scope string_scope.
Local Open Scope list_scope.
Local Open Scope Z_scope.

(** ** Game configuration *)

Definition HAND_SIZE : Z := 5.
Definition MAX_ROUNDS : Z := 10.

(** ** Context classifier *)

Definition strength_bucket (card_strength : Z) : string :=
  if card_strength <=? 3 then "weak"
  else if card_strength <=? 7 then "medium"
  else "strong".

(** [claim_to_strength] indexes a dictionary literal: a claim outside the
    three categories is a [KeyError], here [None]. *)
Definition claim_to_strength (claim : string) : option Z :=
  ({[ "low" := 3; "medium" := 6; "high" := 9 ]} : gmap string Z) !! claim.

(** ** Data model *)

Record PlayerState := mkPlayerState {
  hand : list Z;
  score : Z
}.

(** One row of the [history] data frame. *)
Record Row := mkRow {
  round : Z;
  actor : string;
  actual_strength : Z;
  claim : string;
  did_bluff : Z;
  bot_called : Z;
  result : string
}.

Record GameState := mkGameState {
  round_num : Z;
  player : PlayerState;
  bot : PlayerState;
  history : list Row;
  last_message : string;
  game_over : bool
}.

(** ** Belief model *)

(** key -> (bluff_count, total_count) *)
Record BluffBotAI := mkBluffBotAI {
  context_stats : gmap (string * string) (Z * Z)
}.

(** [BluffBotAI()] *)
Definition new_BluffBotAI : BluffBotAI := mkBluffBotAI ∅.

(** [int(b)] for a Python [bool]. *)
Definition int_of_bool (b : bool) : Z := if b then 1 else 0.

Definition context_key (actual_strength : Z) (claim : string) : string * string :=
  (strength_bucket actual_strength, claim).

Definition update_stats (ai : BluffBotAI) (actual_strength : Z) (claim : string)
    (did_bluff : bool) : BluffBotAI :=
  let key := context_key actual_strength claim in
  let '(b, t) := default (0, 0) (context_stats ai !! key) in
  mkBluffBotAI (<[ key := (b + int_of_bool did_bluff, t + 1) ]> (context_stats ai)).

Definition bluff_probability (ai : BluffBotAI) (actual_strength : Z) (claim : string) : Q :=
  let key := context_key actual_strength claim in
  match context_stats ai !! key with
  | None => 0.35%Q
  | Some (b, t) => (inject_Z (b + 1) / inject_Z (t + 3))%Q
  end.

(** ** Decision policy *)

(** [int(x)] for a Python float [x]: truncation toward zero. *)
Definition py_int (x : Q) : Z := Z.quot (Qnum x) (Z.pos (Qden x)).

(** [x > y] and [x < y] on floats. *)
Definition Qgtb (x y : Q) : bool := negb (Qle_bool x y).
Definition Qltb (x y : Q) : bool := negb (Qle_bool y x).

(** The draws one turn takes from [np.random], in the order of the calls:
    [np.random.uniform(-0.05, 0.05)] in [decide_call], [np.random.rand()] in
    [bot_act], and the index [np.random.choice] draws uniformly from
    [range(len(a))] to return [a[index]]. *)
Record Draws := mkDraws {
  uniform_noise : Q;
  rand : Q;
  choice_index : nat
}.

(** [np.random.choice(a)] for a non-empty list [a] of strings.  The generator
    only draws indices below [len(a)]; on those the remainder is the index
    itself. *)
Definition np_choice (a : list string) (index : nat) : string :=
  nth (index mod length a) a "".

(** [decide_call] read in exact arithmetic: estimate, noise and threshold
    are the rationals the doubles stand for, and product, sum and comparison
    are exact.  [Binary64.decide_call] below is the same method evaluated in
    double precision; the two confidences can differ by one where 100 p is an
    integer (first for 28 bluffs in 47 observations), and the property of
    the confidence is stated on the double precision one.  The two call
    decisions can differ only where the exact sum is within rounding of the
    threshold. *)
Definition decide_call (ai : BluffBotAI) (actual_strength : Z) (claim : string)
    (noise : Q) : bool * Z :=
  let p_bluff := bluff_probability ai actual_strength claim in
  (* AI suspicion meter = p_bluff scaled to 0..100 *)
  let suspicion := py_int (p_bluff * 100)%Q in
  let threshold := 0.55%Q in
  let call := Qgtb (p_bluff + noise)%Q threshold in
  (call, suspicion).

(** ** State and exceptions *)

(** The two objects every operation receives by reference. *)
Record World := mkWorld {
  game : GameState;
  belief : BluffBotAI
}.

(** The only exception the engine can meet: [min]/[max] of an empty
    sequence, or [list.remove] of an absent value. *)
Inductive exn := ValueError.

Inductive outcome (A : Type) :=
| Return (a : A) (w : World)
| Raise (e : exn) (w : World).
Arguments Return {A} a w.
Arguments Raise {A} e w.

(** The world an operation leaves behind, whether it returned or raised. *)
Definition final {A} (o : outcome A) : World :=
  match o with Return _ w => w | Raise _ w => w end.

Definition returned {A} (o : outcome A) : bool :=
  match o with Return _ _ => true | Raise _ _ => false end.

Definition M (A : Type) : Type := World -> outcome A.

Definition ret {A} (a : A) : M A := fun w => Return a w.

Definition bind {A B} (m : M A) (k : A -> M B) : M B :=
  fun w => match m w with
           | Return a w' => k a w'
           | Raise e w' => Raise e w'
           end.

Definition raise {A} (e : exn) : M A := fun w => Raise e w.

Definition gets {A} (f : World -> A) : M A := fun w => Return (f w) w.

Definition modify_game (f : GameState -> GameState) : M unit :=
  fun w => Return tt (mkWorld (f (game w)) (belief w)).

Definition modify_belief (f : BluffBotAI -> BluffBotAI) : M unit :=
  fun w => Return tt (mkWorld (game w) (f (belief w))).

(** A builtin that raises [ValueError] where the model has [None]. *)
Definition or_ValueError {A} (o : option A) : M A :=
  match o with Some a => ret a | None => raise ValueError end.

Declare Scope engine_scope.
Delimit Scope engine_scope with engine.
Notation "x <- c ;; k" := (bind c (fun x => k))
  (at level 100, c at next level, right associativity) : engine_scope.
Notation "c ;; k" := (bind c (fun _ => k))
  (at level 100, right associativity) : engine_scope.
Local Open Scope engine_scope.

(** ** Python builtins on lists *)

(** [min(l)]; [None] when [l] is empty. *)
Definition py_min (l : list Z) : option Z :=
  match l with
  | [] => None
  | x :: xs => Some (fold_left Z.min xs x)
  end.

(** [max(l)]; [None] when [l] is empty. *)
Definition py_max (l : list Z) : option Z :=
  match l with
  | [] => None
  | x :: xs => Some (fold_left Z.max xs x)
  end.

(** [l.remove(v)]: drops the first occurrence; [None] when there is none. *)
Fixpoint list_remove (l : list Z) (v : Z) : option (list Z) :=
  match l with
  | [] => None
  | x :: xs => if x =? v then Some xs
               else match list_remove xs v with
                    | Some xs' => Some (x :: xs')
                    | None => None
                    end
  end.

(** ** Field updates *)

Definition set_hand (h : list Z) (p : PlayerState) : PlayerState :=
  mkPlayerState h (score p).

Definition add_score (n : Z) (p : PlayerState) : PlayerState :=
  mkPlayerState (hand p) (score p + n).

Definition on_player (f : PlayerState -> PlayerState) (g : GameState) : GameState :=
  mkGameState (round_num g) (f (player g)) (bot g) (history g) (last_message g) (game_over g).

Definition on_bot (f : PlayerState -> PlayerState) (g : GameState) : GameState :=
  mkGameState (round_num g) (player g) (f (bot g)) (history g) (last_message g) (game_over g).

Definition set_round_num (n : Z) (g : GameState) : GameState :=
  mkGameState n (player g) (bot g) (history g) (last_message g) (game_over g).

Definition set_history (h : list Row) (g : GameState) : GameState :=
  mkGameState (round_num g) (player g) (bot g) h (last_message g) (game_over g).

Definition set_last_message (m : string) (g : GameState) : GameState :=
  mkGameState (round_num g) (player g) (bot g) (history g) m (game_over g).

Definition set_game_over (b : bool) (g : GameState) : GameState :=
  mkGameState (round_num g) (player g) (bot g) (history g) (last_message g) b.

(** ** Game operations *)

(** [draw_hand(size)] is [list(np.random.randint(1, 11, size))]: [size]
    integers, each at least 1 and below 11.  The list the generator returned
    is an argument of [init_game]; [draw_hand_ok] recognises the lists the
    call can return. *)
Definition draw_hand_ok (size : Z) (drawn : list Z) : bool :=
  (Z.of_nat (length drawn) =? size)
  && forallb (fun c => (1 <=? c) && (c <? 11)) drawn.

(** [init_game]: a default [GameState] with the two drawn hands. *)
Definition init_game (player_hand bot_hand : list Z) : GameState :=
  mkGameState 1 (mkPlayerState player_hand 0) (mkPlayerState bot_hand 0) []
              "New game started. Your move!" false.

Definition log_event (actor : string) (actual_strength : Z) (claim : string)
    (did_bluff bot_called : bool) (result : string) : M unit :=
  modify_game (fun g =>
    let row := mkRow (round_num g) actor actual_strength claim
                     (int_of_bool did_bluff) (int_of_bool bot_called) result in
    set_history (history g ++ [row]) g).

Definition bot_act (rng : Draws) : M unit :=
  (* bot randomly decides to bluff 30% of time *)
  let bluff := Qltb (rand rng) 0.30%Q in
  h <- gets (fun w => hand (bot (game w))) ;;
  played <-
    (if bluff then
       actual_strength <- or_ValueError (py_min h) ;;
       ret (actual_strength, np_choice ["medium"; "high"] (choice_index rng))
     else
       actual_strength <- or_ValueError (py_max h) ;;
       ret (actual_strength, np_choice ["low"; "medium"; "high"] (choice_index rng))) ;;
  let '(actual_strength, claim) := played in
  h' <- or_ValueError (list_remove h actual_strength) ;;
  modify_game (on_bot (set_hand h')) ;;
  (* player doesn't call in MVP; bot gets a point if bluffing and not called *)
  let bot_called := false in
  result <-
    (if bluff then
       modify_game (on_bot (add_score 1)) ;;
       ret "Bot bluff succeeded (+1 Bot)"
     else
       ret "Bot honest play") ;;
  log_event "bot" actual_strength claim bluff bot_called result.

(** The statements of [player_turn] before the call of [bot_act]: card
    selection, the call decision, scoring, learning and the log. *)
Definition player_half (claim : string) (bluff : bool) (rng : Draws) : M unit :=
  h <- gets (fun w => hand (player (game w))) ;;
  actual_strength <- or_ValueError (if bluff then py_min h else py_max h) ;;
  (* remove played card *)
  h' <- or_ValueError (list_remove h actual_strength) ;;
  modify_game (on_player (set_hand h')) ;;
  ai <- gets belief ;;
  let '(bot_called, suspicion) :=
    decide_call ai actual_strength claim (uniform_noise rng) in
  (* resolve scoring *)
  result <-
    (if bot_called then
       if bluff then
         modify_game (on_bot (add_score 1)) ;;
         modify_game (set_last_message
           ("Bot called bluff! âœ… Caught you. (Suspicion " ++ pretty suspicion ++ "%)")) ;;
         ret "Bot caught your bluff (+1 Bot)"
       else
         modify_game (on_player (add_score 1)) ;;
         modify_game (set_last_message
           ("Bot called bluff! âŒ You were honest. (Suspicion " ++ pretty suspicion ++ "%)")) ;;
         ret "Bot wrongly called bluff (+1 You)"
     else
       if bluff then
         modify_game (on_player (add_score 1)) ;;
         modify_game (set_last_message
           ("Bot accepted. ðŸ˜ˆ Bluff worked! (Suspicion " ++ pretty suspicion ++ "%)")) ;;
         ret "Your bluff succeeded (+1 You)"
       else
         modify_game (set_last_message
           ("Bot accepted. ðŸ‘ Honest play. (Suspicion " ++ pretty suspicion ++ "%)")) ;;
         ret "Honest play (no call)") ;;
  (* update AI learning *)
  modify_belief (fun ai => update_stats ai actual_strength claim bluff) ;;
  (* log *)
  log_event "player" actual_strength claim bluff bot_called result.

(** The last statements of [player_turn]: advance the round. *)
Definition advance_round : M unit :=
  modify_game (fun g => set_round_num (round_num g + 1) g) ;;
  g <- gets game ;;
  if (MAX_ROUNDS <? round_num g)
     || ((Z.of_nat (length (hand (player g))) =? 0)
         && (Z.of_nat (length (hand (bot g))) =? 0))
  then
    modify_game (set_game_over true) ;;
    modify_game (fun g => set_last_message (last_message g ++ " | Game Over!") g)
  else ret tt.

Definition player_turn (claim : string) (bluff : bool) (rng : Draws) : M unit :=
  player_half claim bluff rng ;;
  (* bot also plays a turn (simple mirror) *)
  bot_act rng ;;
  (* advance round *)
  advance_round.

(** ** Sessions *)

(** What the collaborator passes to one [player_turn], with the draws the
    generator makes during it. *)
Record Move := mkMove {
  move_claim : string;
  move_bluff : bool;
  move_rng : Draws
}.

(** Consecutive [player_turn] calls on the same game and belief model; an
    exception ends the sequence, as it propagates to the caller. *)
Fixpoint play (moves : list Move) : M unit :=
  match moves with
  | [] => ret tt
  | m :: ms =>
      player_turn (move_claim m) (move_bluff m) (move_rng m) ;;
      play ms
  end.

(** The "Start New Game" action of [app.py]: a new [GameState], the same
    belief model. *)
Definition new_game (player_hand bot_hand : list Z) : M unit :=
  modify_game (fun _ => init_game player_hand bot_hand).

(** ** Observations of the belief model *)

(** One call [update_stats(actual_strength, claim, did_bluff)]. *)
Definition observation : Type := Z * string * bool.

Definition observe (ai : BluffBotAI) (o : observation) : BluffBotAI :=
  let '(actual_strength, claim, did_bluff) := o in
  update_stats ai actual_strength claim did_bluff.

Definition observe_all (obs : list observation) (ai : BluffBotAI) : BluffBotAI :=
  fold_left observe obs ai.

Definition obs_key (o : observation) : string * string :=
  let '(actual_strength, claim, _) := o in context_key actual_strength claim.

Definition obs_bluff (o : observation) : bool :=
  let '(_, _, did_bluff) := o in did_bluff.

(** How often a context key was observed, and how often as a bluff. *)
Definition seen (key : string * string) (obs : list observation) : Z :=
  Z.of_nat (length (List.filter (fun o => bool_decide (obs_key o = key)) obs)).

Definition seen_bluffs (key : string * string) (obs : list observation) : Z :=
  Z.of_nat (length (List.filter (fun o => bool_decide (obs_key o = key) && obs_bluff o) obs)).

(** ** The rounding the specification names *)


(** ** Sample sessions *)

(** Seventeen plays of a weak card claimed "high", six of them bluffs. *)
Definition obs_collision : list observation :=
  repeat (2, "high", true) 6 ++ repeat (2, "high", false) 11.

(** A single bluff with a weak card claimed "high". *)
Definition obs_single : list observation := [(2, "high", true)].


(** A draw record under which neither side is helped: no noise, an honest
    opponent that picks its first claim. *)
Definition calm : Draws := mkDraws 0 0.5 0.

Definition bluffing (claim : string) : Move := mkMove claim true calm.
Definition honest (claim : string) : Move := mkMove claim false calm.

(** Four games in one browser session, the player holding five cards of
    strength 2 each time and always claiming "high": six bluffs, then eleven
    honest plays. *)
Definition collision_session : M unit :=
  new_game [2; 2; 2; 2; 2] [5; 5; 5; 5; 5] ;;
  play (repeat (bluffing "high") 5) ;;
  new_game [2; 2; 2; 2; 2] [5; 5; 5; 5; 5] ;;
  play (bluffing "high" :: repeat (honest "high") 4) ;;
  new_game [2; 2; 2; 2; 2] [5; 5; 5; 5; 5] ;;
  play (repeat (honest "high") 5) ;;
  new_game [2; 2; 2; 2; 2] [5; 5; 5; 5; 5] ;;
  play (repeat (honest "high") 2).

(** The state of the application when the page is first loaded. *)
Definition startup (player_hand bot_hand : list Z) : World :=
  mkWorld (init_game player_hand bot_hand) new_BluffBotAI.

(** A game the collaborator left in the terminal state with cards still in
    both hands, and a freshly dealt game. *)
Definition finished_with_cards : World :=
  mkWorld (mkGameState 11 (mkPlayerState [5] 2) (mkPlayerState [6] 3) [] "" true)
          new_BluffBotAI.

Definition dealt : World := startup [2; 9; 4; 4; 7] [3; 4; 8; 1; 6].

(** Five honest "high" plays, a full game. *)
Definition five_honest : list Move := repeat (honest "high") 5.

(** ** The same arithmetic in binary64 *)

(** The interpreter evaluates the estimate and the confidence on IEEE 754
    double precision numbers.  [Binary64] evaluates the same expressions with
    the reference implementation of that arithmetic, to compare it with the
    exact rationals used above. *)
Module Binary64.

Definition prec : Z := 53.
Definition emax : Z := 1024.

(** [float(z)] for an integer. *)
Definition of_int (z : Z) : spec_float := binary_normalize prec emax z 0 false.

(** The value a finite double denotes. *)
Definition to_Q (x : spec_float) : Q :=
  match x with
  | S754_finite s m e =>
      let a := (inject_Z (Z.pos m) * (2 ^ e))%Q in
      if s then (- a)%Q else a
  | _ => 0%Q
  end.

(** [int(x)] for a finite double: truncation toward zero. *)
Definition to_int (x : spec_float) : Z :=
  match x with
  | S754_finite s m e =>
      let a := if 0 <=? e then Z.pos m * 2 ^ e else Z.pos m / 2 ^ (- e) in
      if s then - a else a
  | _ => 0
  end.

(** The literal [0.35]: the double 0x3FD6666666666666. *)
Definition lit_0_35 : spec_float := S754_finite false 6305039478318694 (-54).

(** [bluff_probability] on the stored statistic of the key. *)
Definition bluff_probability (stat : option (Z * Z)) : spec_float :=
  match stat with
  | None => lit_0_35
  | Some (b, t) => SFdiv prec emax (of_int (b + 1)) (of_int (t + 3))
  end.

(** [int(p_bluff * 100)] *)
Definition suspicion (p_bluff : spec_float) : Z :=
  to_int (SFmul prec emax p_bluff (of_int 100)).

(** Whether the double and the rational confidence agree on the statistic
    [(b, t)]. *)
Definition agrees (b t : nat) : bool :=
  suspicion (bluff_probability (Some (Z.of_nat b, Z.of_nat t)))
  =? py_int (inject_Z (Z.of_nat b + 1) / inject_Z (Z.of_nat t + 3) * 100)%Q.

Definition agrees_below (bound : nat) : bool :=
  forallb (fun t => forallb (fun b => agrees b t) (seq 0 (S t))) (seq 0 bound).

(** The literal [0.55]: the double 0x3FE199999999999A. *)
Definition lit_0_55 : spec_float := S754_finite false 4953959590107546 (-53).

(** [decide_call] as the interpreter evaluates it: the estimate, the noise
    drawn by [np.random.uniform] and the threshold are doubles, [*] and [+]
    round to nearest, [int] truncates and [>] compares doubles. *)
Definition decide_call (ai : BluffBotAI) (actual_strength : Z) (claim : string)
    (noise : spec_float) : bool * Z :=
  let p_bluff := bluff_probability (context_stats ai !! context_key actual_strength claim) in
  (* AI suspicion meter = p_bluff scaled to 0..100 *)
  let suspicion := to_int (SFmul prec emax p_bluff (of_int 100)) in
  let threshold := lit_0_55 in
  let call := SFltb threshold (SFadd prec emax p_bluff noise) in
  (call, suspicion).



End Binary64.

(** ** Vocabulary of the session properties *)

(** The test [player_turn] makes after advancing the round, read on a state:
    the round limit is exceeded, or both hands are empty. *)
Definition termination_condition (g : GameState) : bool :=
  (MAX_ROUNDS <? round_num g)
  || ((Z.of_nat (length (hand (player g))) =? 0)
      && (Z.of_nat (length (hand (bot g))) =? 0)).

(** The round column of a log of [k] full rounds that starts in round [r]:
    r, r, r+1, r+1, ... *)
Fixpoint round_marks (r : Z) (k : nat) : list Z :=
  match k with
  | O => []
  | S k' => r :: r :: round_marks (r + 1) k'
  end.

(** The actor column of a log of [k] full rounds. *)
Fixpoint actor_marks (k : nat) : list string :=
  match k with
  | O => []
  | S k' => "player" :: "bot" :: actor_marks k'
  end.

(** ** Vocabulary of the ledger properties *)

(** The order of the three buckets: weak, medium, strong. *)
Definition bucket_rank (bucket : string) : Z :=
  if String.eqb bucket "weak" then 0
  else if String.eqb bucket "medium" then 1
  else 2.

(** [history[history["actor"] == who]] *)
Definition is_actor (who : string) (r : Row) : bool := String.eqb (actor r) who.

Definition rows_of (who : string) (rows : list Row) : list Row :=
  List.filter (is_actor who) rows.

(** The strengths an actor is logged to have played. *)
Definition played (who : string) (rows : list Row) : list Z :=
  map actual_strength (rows_of who rows).

(** The point a logged action gave the player: a play of the player on which
    bluff flag and call flag differ. *)
Definition player_point (r : Row) : Z :=
  if is_actor "player" r && negb (did_bluff r =? bot_called r) then 1 else 0.

(** The point a logged action gave the opponent: a called bluff of the
    player, or a bluff of its own. *)
Definition bot_point (r : Row) : Z :=
  if (did_bluff r =? 1) && (is_actor "bot" r || (bot_called r =? 1)) then 1 else 0.

Definition points (point : Row -> Z) (rows : list Row) : Z :=
  fold_right (fun r acc => point r + acc) 0 rows.

(** What a logged play of the player showed the belief model. *)
Definition row_observation (r : Row) : observation :=
  (actual_strength r, claim r, did_bluff r =? 1).

Definition logged_observations (rows : list Row) : list observation :=
  map row_observation (rows_of "player" rows).

(** A row the engine writes: flags are 0 or 1, the actor is one of the two. *)
Definition engine_row (r : Row) : Prop :=
  (did_bluff r = 0 \/ did_bluff r = 1) /\
  (bot_called r = 0 \/ bot_called r = 1) /\
  (actor r = "player" \/ actor r = "bot").

(** The rows logged between two states. *)
Definition new_rows (w w' : World) : list Row :=
  drop (length (history (game w))) (history (game w')).

(** ** The callers in [app.py] *)

(** The "Play Turn" button is created with [disabled=g.game_over]; a disabled
    button is never pressed, and the script then leaves the state alone. *)
Definition press_play_turn (claim : string) (bluff : bool) (rng : Draws) : M unit :=
  g <- gets game ;;
  if game_over g then ret tt else player_turn claim bluff rng.

(** The "Start New Game" button exists only under [if g.game_over]. *)
Definition press_start_new_game (player_hand bot_hand : list Z) : M unit :=
  g <- gets game ;;
  if game_over g then new_game player_hand bot_hand else ret tt.

(** What the user can do on the page, with what the generator draws. *)
Inductive Action :=
| PlayTurn (m : Move)
| StartNewGame (player_hand bot_hand : list Z).

Definition press (a : Action) : M unit :=
  match a with
  | PlayTurn m => press_play_turn (move_claim m) (move_bluff m) (move_rng m)
  | StartNewGame player_hand bot_hand => press_start_new_game player_hand bot_hand
  end.

Fixpoint browse (actions : list Action) : M unit :=
  match actions with
  | [] => ret tt
  | a :: rest => press a ;; browse rest
  end.

(** The hands of a new game are what [draw_hand()] can return. *)
Definition action_ok (a : Action) : bool :=
  match a with
  | PlayTurn _ => true
  | StartNewGame player_hand bot_hand =>
      draw_hand_ok HAND_SIZE player_hand && draw_hand_ok HAND_SIZE bot_hand
  end.

(** [player_rows["did_bluff"].mean() if len(player_rows) else 0] *)
Definition bluff_rate (h : list Row) : Q :=
  let player_rows := rows_of "player" h in
  if (length player_rows =? 0)%nat then 0%Q
  else (inject_Z (fold_right Z.add 0%Z (map did_bluff player_rows))
        / inject_Z (Z.of_nat (length player_rows)))%Q.

(** The live suspicion meter: the value handed to [st.progress] and the
    percentage of the caption. *)
Definition suspicion_meter (h : list Row) : Q * Z :=
  if (0 <? length h)%nat then
    let r := bluff_rate h in
    ((if Qltb r 1 then r else 1%Q), py_int (r * 100)%Q)
  else (0%Q, 0).

(** The statistic the belief model holds for a key, (0, 0) when it holds
    none: [context_stats.get(key, (0, 0))]. *)
Definition stat (ai : BluffBotAI) (key : string * string) : Z * Z :=
  default (0, 0) (context_stats ai !! key).

(** What holds of the page between two clicks. *)
Definition page_invariant (w : World) : Prop :=
  let g := game w in
  length (hand (player g)) = length (hand (bot g)) /\
  game_over g = termination_condition g /\
  round_num g + Z.of_nat (length (hand (player g))) = HAND_SIZE + 1 /\
  Z.of_nat (length (history g)) = 2 * (round_num g - 1).

(** * Properties *)

(** ** Belief model *)

Section BeliefModel.

Implicit Types (ai : BluffBotAI) (obs : list observation) (key : string * string).

Lemma update_stats_lookup ai s c d key :
  context_stats (update_stats ai s c d) !! key =
  if decide (context_key s c = key)
  then Some (fst (default (0, 0) (context_stats ai !! key)) + int_of_bool d,
             snd (default (0, 0) (context_stats ai !! key)) + 1)
  else context_stats ai !! key.
Proof.
  unfold update_stats.
  destruct (default (0, 0) (context_stats ai !! context_key s c)) as [b t] eqn:E.
  cbn [context_stats]. rewrite lookup_insert.
  destruct (decide (context_key s c = key)) as [<-|]; [|done].
  by rewrite E.
Qed.

Lemma observe_all_snoc obs o ai :
  observe_all (obs ++ [o]) ai = observe (observe_all obs ai) o.
Proof. unfold observe_all. by rewrite fold_left_app. Qed.

Lemma seen_snoc key obs o :
  seen key (obs ++ [o]) = seen key obs + (if decide (obs_key o = key) then 1 else 0).
Proof.
  unfold seen. rewrite List.filter_app, length_app. cbn [List.filter].
  destruct (decide (obs_key o = key)) as [E|E].
  - rewrite bool_decide_true by done. cbn. lia.
  - rewrite bool_decide_false by done. cbn. lia.
Qed.

Lemma seen_bluffs_snoc key obs o :
  seen_bluffs key (obs ++ [o]) =
  seen_bluffs key obs +
  (if decide (obs_key o = key) then int_of_bool (obs_bluff o) else 0).
Proof.
  unfold seen_bluffs. rewrite List.filter_app, length_app. cbn [List.filter].
  destruct (decide (obs_key o = key)) as [E|E].
  - rewrite bool_decide_true by done. destruct (obs_bluff o); cbn; lia.
  - rewrite bool_decide_false by done. cbn. lia.
Qed.

Lemma seen_counts key obs : 0 <= seen_bluffs key obs <= seen key obs.
Proof.
  induction obs as [|o obs IH] using rev_ind.
  - unfold seen, seen_bluffs. simpl. lia.
  - rewrite seen_snoc, seen_bluffs_snoc.
    destruct (decide (obs_key o = key)); [destruct (obs_bluff o); cbn|]; lia.
Qed.

(** The statistics the model holds are the counts of what it was shown. *)
Lemma observed_stats obs key :
  context_stats (observe_all obs new_BluffBotAI) !! key =
  if seen key obs =? 0 then None else Some (seen_bluffs key obs, seen key obs).
Proof.
  induction obs as [|o obs IH] using rev_ind.
  - cbn. apply lookup_empty.
  - rewrite observe_all_snoc, seen_snoc, seen_bluffs_snoc.
    destruct o as [[s c] d]. cbn [observe obs_key obs_bluff].
    rewrite update_stats_lookup.
    pose proof (seen_counts key obs) as Hc.
    destruct (decide (context_key s c = key)) as [E|E].
    + rewrite IH. destruct (seen key obs =? 0) eqn:E0.
      * apply Z.eqb_eq in E0. rewrite E0.
        assert (seen_bluffs key obs = 0) as -> by lia. cbn. done.
      * apply Z.eqb_neq in E0. cbn [default fst snd].
        destruct (seen key obs + 1 =? 0) eqn:E1; [apply Z.eqb_eq in E1; lia|done].
    + rewrite IH, !Z.add_0_r. done.
Qed.

Lemma laplace_bounds (b t : Z) :
  0 <= b <= t -> (0 < inject_Z (b + 1) / inject_Z (t + 3) < 1)%Q.
Proof.
  intros H.
  assert (0 < inject_Z (t + 3))%Q as Hd.
  { replace 0%Q with (inject_Z 0) by done. rewrite <- Zlt_Qlt. lia. }
  split.
  - apply Qlt_shift_div_l; [done|]. rewrite Qmult_0_l.
    replace 0%Q with (inject_Z 0) by done. rewrite <- Zlt_Qlt. lia.
  - apply Qlt_shift_div_r; [done|]. rewrite Qmult_1_l.
    rewrite <- Zlt_Qlt. lia.
Qed.

(** The estimate after a sequence of observations, from the counts. *)
Lemma observed_estimate obs (s : Z) (c : string) :
  let ai := observe_all obs new_BluffBotAI in
  let t := seen (context_key s c) obs in
  let b := seen_bluffs (context_key s c) obs in
  0 <= b <= t /\
  bluff_probability ai s c =
    (if t =? 0 then 0.35 else inject_Z (b + 1) / inject_Z (t + 3))%Q /\
  (0 < bluff_probability ai s c < 1)%Q.
Proof.
  intros ai t b.
  pose proof (seen_counts (context_key s c) obs) as Hc.
  pose proof (observed_stats obs (context_key s c)) as Hl.
  fold ai t b in Hc, Hl.
  assert (bluff_probability ai s c =
          (if t =? 0 then 0.35 else inject_Z (b + 1) / inject_Z (t + 3))%Q) as Hp.
  { unfold bluff_probability. rewrite Hl. by destruct (t =? 0). }
  split; [done|]. split; [done|].
  rewrite Hp. destruct (t =? 0); [split; reflexivity|]. by apply laplace_bounds.
Qed.

End BeliefModel.

(** C1.  After any sequence of observations, the estimate for a context key
    is exactly 0.35 when that key was never observed, and otherwise it is
    (bluff_count + 1) / (total_count + 3) with the counts of the observations
    of that key; the counts satisfy 0 <= bluff_count <= total_count and the
    estimate lies strictly between 0 and 1.  The bounds hold as well for any
    stored statistic with 0 <= bluff_count <= total_count. *)
Theorem bluff_probability_estimate (obs : list observation) (s : Z) (c : string) :
  let ai := observe_all obs new_BluffBotAI in
  let t := seen (context_key s c) obs in
  let b := seen_bluffs (context_key s c) obs in
  0 <= b <= t /\
  context_stats ai !! context_key s c = (if t =? 0 then None else Some (b, t)) /\
  bluff_probability ai s c =
    (if t =? 0 then 0.35 else inject_Z (b + 1) / inject_Z (t + 3))%Q /\
  (0 < bluff_probability ai s c < 1)%Q /\
  (forall ai' b' t',
      context_stats ai' !! context_key s c = Some (b', t') ->
      0 <= b' <= t' ->
      bluff_probability ai' s c = (inject_Z (b' + 1) / inject_Z (t' + 3))%Q /\
      (0 < bluff_probability ai' s c < 1)%Q).
Proof.
  intros ai t b.
  destruct (observed_estimate obs s c) as (Hc & Hp & Hb).
  pose proof (observed_stats obs (context_key s c)) as Hl.
  fold ai t b in Hc, Hp, Hb, Hl.
  split; [done|]. split; [done|]. split; [done|]. split; [done|].
  intros ai' b' t' Hs Hbt. unfold bluff_probability. rewrite Hs.
  split; [done|]. by apply laplace_bounds.
Qed.

Lemma bluff_probability_estimate_witness :
  (0 < bluff_probability (observe_all obs_single new_BluffBotAI) 2%Z "high" < 1)%Q.
Proof.
  pose proof (bluff_probability_estimate [] 2 "high") as H. cbv zeta in H.
  destruct H as (_ & _ & _ & _ & H).
  apply (H (observe_all obs_single new_BluffBotAI) 1 1);
    [vm_compute; reflexivity | lia].
Defined.

(** ** The estimate and the prior *)

Lemma Qltb_lt (x y : Q) : Qltb x y = true <-> (x < y)%Q.
Proof.
  unfold Qltb. rewrite negb_true_iff, <- not_true_iff_false, Qle_bool_iff.
  split; [apply Qnot_le_lt | apply Qlt_not_le].
Qed.

Lemma Qgtb_lt (x y : Q) : Qgtb x y = true <-> (y < x)%Q.
Proof. apply (Qltb_lt y x). Qed.

Lemma Qdiv_eq_iff (x y c : Q) : (0 < y)%Q -> (x / y == c)%Q <-> (x == c * y)%Q.
Proof.
  intros Hy. assert (~ y == 0)%Q as Hn by (intros E; rewrite E in Hy; by apply Qlt_irrefl in Hy).
  split; intros E.
  - rewrite <- E. rewrite Qmult_comm. by rewrite Qmult_div_r.
  - rewrite E. by apply Qdiv_mult_l.
Qed.

Lemma inject_Z_pos (z : Z) : 0 < z -> (0 < inject_Z z)%Q.
Proof. intros H. replace 0%Q with (inject_Z 0) by done. by rewrite <- Zlt_Qlt. Qed.

Lemma laplace_prior_iff (b t : Z) :
  0 <= t -> (inject_Z (b + 1) / inject_Z (t + 3) == 0.35)%Q <-> 20 * (b + 1) = 7 * (t + 3).
Proof.
  intros Ht. rewrite Qdiv_eq_iff by (apply inject_Z_pos; lia).
  unfold Qeq. cbn. lia.
Qed.

(** C5, as stated, fails: a context observed seventeen times with six bluffs
    has the estimate 7/20, which is the prior 0.35.  The statistic is reached
    by the engine itself in four games of one session. *)
Lemma estimate_prior_collision :
  let ai := observe_all obs_collision new_BluffBotAI in
  seen (context_key 2 "high") obs_collision = 17 /\
  context_stats ai !! context_key 2 "high" = Some (6, 17) /\
  (bluff_probability ai 2 "high" == 0.35)%Q /\
  (let w := collision_session (startup [1; 1; 1; 1; 1] [1; 1; 1; 1; 1]) in
   returned w = true /\
   context_stats (belief (final w)) !! context_key 2 "high" = Some (6, 17) /\
   (bluff_probability (belief (final w)) 2 "high" == 0.35)%Q).
Proof. vm_compute. repeat split; reflexivity. Qed.

(** C5, amended.  For a context observed t >= 1 times with b bluffs, the
    estimate equals the prior 0.35 exactly when 20 (b + 1) = 7 (t + 3); this
    never happens for fewer than seventeen observations. *)
Theorem estimate_equals_prior_iff (obs : list observation) (s : Z) (c : string) :
  let ai := observe_all obs new_BluffBotAI in
  let t := seen (context_key s c) obs in
  let b := seen_bluffs (context_key s c) obs in
  t <> 0 ->
  ((bluff_probability ai s c == 0.35)%Q <-> 20 * (b + 1) = 7 * (t + 3)) /\
  (t < 17 -> ~ (bluff_probability ai s c == 0.35)%Q).
Proof.
  intros ai t b Ht.
  destruct (observed_estimate obs s c) as (Hc & Hp & _).
  fold ai t b in Hc, Hp.
  apply Z.eqb_neq in Ht. rewrite Ht in Hp. apply Z.eqb_neq in Ht.
  rewrite Hp, laplace_prior_iff by lia. split; [done|lia].
Qed.

Lemma estimate_equals_prior_iff_witness :
  ~ (bluff_probability (observe_all obs_single new_BluffBotAI) 2%Z "high" == 0.35)%Q.
Proof.
  apply (estimate_equals_prior_iff obs_single 2 "high");
    vm_compute; [discriminate | reflexivity].
Defined.

(** ** Decision policy *)

Lemma py_int_floor (x : Q) : (0 <= x)%Q -> py_int x = Qfloor x.
Proof.
  destruct x as [n d]. unfold Qle, py_int, Qfloor. cbn. intros H.
  apply Z.quot_div_nonneg; lia.
Qed.












(** ** Builtins on hands *)

Section Builtins.

Implicit Types (l : list Z) (v : Z).

Lemma fold_min_spec l v :
  let m := fold_left Z.min l v in
  In m (v :: l) /\ Forall (fun y => m <= y) (v :: l).
Proof.
  revert v. induction l as [|x xs IH]; intros v; cbn [fold_left].
  - split; [by left | by repeat constructor].
  - destruct (IH (Z.min v x)) as [Hin Hall]. cbv zeta. split.
    + destruct Hin as [E|Hin]; [|by right; right].
      rewrite <- E. destruct (Z.min_spec v x) as [[_ ->]|[_ ->]]; [by left|by right; left].
    + inversion Hall as [|? ? Hh Ht]; subst.
      constructor; [lia|]. constructor; [lia|done].
Qed.

Lemma fold_max_spec l v :
  let m := fold_left Z.max l v in
  In m (v :: l) /\ Forall (fun y => y <= m) (v :: l).
Proof.
  revert v. induction l as [|x xs IH]; intros v; cbn [fold_left].
  - split; [by left | by repeat constructor].
  - destruct (IH (Z.max v x)) as [Hin Hall]. cbv zeta. split.
    + destruct Hin as [E|Hin]; [|by right; right].
      rewrite <- E. destruct (Z.max_spec v x) as [[_ ->]|[_ ->]]; [by right; left|by left].
    + inversion Hall as [|? ? Hh Ht]; subst.
      constructor; [lia|]. constructor; [lia|done].
Qed.

Lemma py_min_spec l :
  l <> [] -> exists m, py_min l = Some m /\ In m l /\ Forall (fun y => m <= y) l.
Proof.
  destruct l as [|x xs]; [done|]. intros _. eexists. split; [reflexivity|].
  apply fold_min_spec.
Qed.

Lemma py_max_spec l :
  l <> [] -> exists m, py_max l = Some m /\ In m l /\ Forall (fun y => y <= m) l.
Proof.
  destruct l as [|x xs]; [done|]. intros _. eexists. split; [reflexivity|].
  apply fold_max_spec.
Qed.

(** [remove] takes out the first occurrence and nothing else. *)
Lemma list_remove_spec l v :
  In v l ->
  exists l1 l2, l = l1 ++ v :: l2 /\ ~ In v l1 /\ list_remove l v = Some (l1 ++ l2).
Proof.
  induction l as [|x xs IH]; [done|]. intros Hin. cbn [list_remove].
  destruct (x =? v) eqn:E.
  - apply Z.eqb_eq in E as ->. exists [], xs. repeat split. intros [].
  - apply Z.eqb_neq in E. destruct Hin as [?|Hin]; [done|].
    destruct (IH Hin) as (l1 & l2 & -> & Hn & ->).
    exists (x :: l1), l2. repeat split. intros [?|?]; done.
Qed.

Lemma list_remove_length l v l' :
  list_remove l v = Some l' -> length l = S (length l').
Proof.
  revert l'. induction l as [|x xs IH]; [done|]. intros l'. cbn [list_remove].
  destruct (x =? v); [by intros [= ->]|].
  destruct (list_remove xs v) as [xs'|]; [|done]. intros [= <-].
  cbn. f_equal. by apply IH.
Qed.

Lemma list_remove_Permutation l v l' :
  list_remove l v = Some l' -> Permutation l (v :: l').
Proof.
  revert l'. induction l as [|x xs IH]; [done|]. intros l'. cbn [list_remove].
  destruct (x =? v) eqn:E; [apply Z.eqb_eq in E as ->; by intros [= ->]|].
  destruct (list_remove xs v) as [xs'|]; [|done]. intros [= <-].
  rewrite (IH xs' eq_refl). apply perm_swap.
Qed.

(** The card a side plays, and the hand it keeps. *)
Lemma select_card (bluff : bool) l :
  l <> [] ->
  exists card l',
    (if bluff then py_min l else py_max l) = Some card /\
    list_remove l card = Some l' /\
    In card l /\
    Forall (fun y => if bluff then card <= y else y <= card) l.
Proof.
  intros Hne. destruct bluff.
  - destruct (py_min_spec l Hne) as (m & Hm & Hin & Hall).
    destruct (list_remove_spec l m Hin) as (l1 & l2 & _ & _ & Hr). by exists m, (l1 ++ l2).
  - destruct (py_max_spec l Hne) as (m & Hm & Hin & Hall).
    destruct (list_remove_spec l m Hin) as (l1 & l2 & _ & _ & Hr). by exists m, (l1 ++ l2).
Qed.

End Builtins.

(** ** One turn *)

Section Turn.

Implicit Types (w : World) (rng : Draws) (cl : string) (bluff : bool).

Lemma bot_act_raises rng w :
  hand (bot (game w)) = [] -> bot_act rng w = Raise ValueError w.
Proof.
  intros E. unfold bot_act, bind, gets. rewrite E.
  by destruct (Qltb (rand rng) 0.30).
Qed.

Lemma bot_act_returns rng w :
  hand (bot (game w)) <> [] ->
  let g := game w in
  let bluff := Qltb (rand rng) 0.30 in
  exists card h',
    (if bluff then py_min (hand (bot g)) else py_max (hand (bot g))) = Some card /\
    list_remove (hand (bot g)) card = Some h' /\
    bot_act rng w =
    Return tt (mkWorld
      (mkGameState (round_num g) (player g)
         (mkPlayerState h' (score (bot g) + int_of_bool bluff))
         (history g ++
          [mkRow (round_num g) "bot" card
             (np_choice (if bluff then ["medium"; "high"] else ["low"; "medium"; "high"])
                        (choice_index rng))
             (int_of_bool bluff) 0
             (if bluff then "Bot bluff succeeded (+1 Bot)" else "Bot honest play")])
         (last_message g) (game_over g))
      (belief w)).
Proof.
  intros Hne g bluff. subst g.
  destruct (select_card bluff _ Hne) as (card & h' & Hsel & Hrem & _).
  exists card, h'. repeat split; [done..|].
  unfold bot_act, bind, gets. fold bluff.
  destruct bluff; cbn [or_ValueError]; rewrite Hsel; cbn; rewrite Hrem; cbn;
    unfold modify_game, log_event, modify_game; cbn.
  - reflexivity.
  - by rewrite Z.add_0_r.
Qed.

Lemma player_half_raises cl bluff rng w :
  hand (player (game w)) = [] -> player_half cl bluff rng w = Raise ValueError w.
Proof.
  intros E. unfold player_half, bind, gets. rewrite E. by destruct bluff.
Qed.

Lemma player_half_returns cl bluff rng w :
  hand (player (game w)) <> [] ->
  exists card h' w1,
    (if bluff then py_min (hand (player (game w)))
     else py_max (hand (player (game w)))) = Some card /\
    list_remove (hand (player (game w))) card = Some h' /\
    player_half cl bluff rng w = Return tt w1 /\
    let called := fst (decide_call (belief w) card cl (uniform_noise rng)) in
    hand (player (game w1)) = h' /\
    score (player (game w1)) =
      score (player (game w)) + (if xorb bluff called then 1 else 0) /\
    hand (bot (game w1)) = hand (bot (game w)) /\
    score (bot (game w1)) =
      score (bot (game w)) + (if bluff && called then 1 else 0) /\
    round_num (game w1) = round_num (game w) /\
    history (game w1) =
      history (game w) ++
      [mkRow (round_num (game w)) "player" card cl
         (int_of_bool bluff) (int_of_bool called)
         (match called, bluff with
          | true, true => "Bot caught your bluff (+1 Bot)"
          | true, false => "Bot wrongly called bluff (+1 You)"
          | false, true => "Your bluff succeeded (+1 You)"
          | false, false => "Honest play (no call)"
          end)] /\
    game_over (game w1) = game_over (game w) /\
    belief w1 = update_stats (belief w) card cl bluff.
Proof.
  intros Hne.
  destruct (select_card bluff _ Hne) as (card & h' & Hsel & Hrem & _).
  exists card, h'. unfold player_half, bind, gets. rewrite Hsel. cbn [or_ValueError ret].
  rewrite Hrem. cbn [or_ValueError ret modify_game game belief].
  destruct (decide_call (belief w) card cl (uniform_noise rng)) as [called suspicion].
  cbn [fst].
  destruct called, bluff; cbn;
    (eexists; split; [done|]; split; [done|]; split; [reflexivity|]);
    cbn; repeat split; lia.
Qed.

(** The termination test of [player_turn], on the state it is applied to. *)
Lemma advance_round_returns w :
  exists w',
    advance_round w = Return tt w' /\
    round_num (game w') = round_num (game w) + 1 /\
    player (game w') = player (game w) /\
    bot (game w') = bot (game w) /\
    history (game w') = history (game w) /\
    belief w' = belief w /\
    game_over (game w') =
      (if (MAX_ROUNDS <? round_num (game w) + 1)
          || ((Z.of_nat (length (hand (player (game w)))) =? 0)
              && (Z.of_nat (length (hand (bot (game w)))) =? 0))
       then true else game_over (game w)).
Proof.
  unfold advance_round, bind, gets, modify_game. cbn.
  destruct ((MAX_ROUNDS <? round_num (game w) + 1)
            || ((Z.of_nat (length (hand (player (game w)))) =? 0)
                && (Z.of_nat (length (hand (bot (game w)))) =? 0)));
    cbn; eexists; repeat split.
Qed.

Lemma player_turn_raises cl bluff rng w :
  hand (player (game w)) = [] -> player_turn cl bluff rng w = Raise ValueError w.
Proof.
  intros E. unfold player_turn, bind. by rewrite player_half_raises.
Qed.

(** The three stages of a turn that runs to its end. *)
Lemma player_turn_stages cl bluff rng w :
  hand (player (game w)) <> [] -> hand (bot (game w)) <> [] ->
  exists w1 w2 w3,
    player_half cl bluff rng w = Return tt w1 /\
    bot_act rng w1 = Return tt w2 /\
    advance_round w2 = Return tt w3 /\
    player_turn cl bluff rng w = Return tt w3.
Proof.
  intros Hp Hb.
  destruct (player_half_returns cl bluff rng w Hp)
    as (card & h' & w1 & _ & _ & H1 & _ & _ & Hbh & _).
  assert (hand (bot (game w1)) <> []) as Hb1 by by rewrite Hbh.
  destruct (bot_act_returns rng w1 Hb1) as (card2 & h2 & _ & _ & H2).
  destruct (advance_round_returns
              (final (bot_act rng w1))) as (w3 & H3 & _).
  rewrite H2 in H3. cbn [final] in H3.
  eexists w1, _, w3. repeat split; [done..|].
  unfold player_turn, bind. by rewrite H1, H2, H3.
Qed.

(** A turn that starts with a card in the player's hand but none in the
    opponent's stops in [bot_act], after the player's half was applied. *)
Lemma player_turn_stops_in_bot_act cl bluff rng w :
  hand (player (game w)) <> [] -> hand (bot (game w)) = [] ->
  exists w1,
    player_half cl bluff rng w = Return tt w1 /\
    player_turn cl bluff rng w = Raise ValueError w1.
Proof.
  intros Hp Hb.
  destruct (player_half_returns cl bluff rng w Hp)
    as (card & h' & w1 & _ & _ & H1 & _ & _ & Hbh & _).
  exists w1. split; [done|]. unfold player_turn, bind. rewrite H1.
  rewrite bot_act_raises; [done|]. by rewrite Hbh.
Qed.

(** What a completed turn does to the hands, the round counter, the log and
    the terminal flag. *)
Lemma player_turn_returns cl bluff rng w :
  hand (player (game w)) <> [] -> hand (bot (game w)) <> [] ->
  exists w' r1 r2,
    player_turn cl bluff rng w = Return tt w' /\
    length (hand (player (game w))) = S (length (hand (player (game w')))) /\
    length (hand (bot (game w))) = S (length (hand (bot (game w')))) /\
    round_num (game w') = round_num (game w) + 1 /\
    history (game w') = history (game w) ++ [r1; r2] /\
    (round r1 = round_num (game w) /\ actor r1 = "player") /\
    (round r2 = round_num (game w) /\ actor r2 = "bot") /\
    game_over (game w') =
      (if (MAX_ROUNDS <? round_num (game w'))
          || ((Z.of_nat (length (hand (player (game w')))) =? 0)
              && (Z.of_nat (length (hand (bot (game w')))) =? 0))
       then true else game_over (game w)).
Proof.
  intros Hp Hb.
  destruct (player_half_returns cl bluff rng w Hp)
    as (card & h' & w1 & _ & Hrem & H1 & Hh & _ & Hbh & _ & Hr & Hhist & Hgo & _).
  assert (hand (bot (game w1)) <> []) as Hb1 by by rewrite Hbh.
  destruct (bot_act_returns rng w1 Hb1) as (card2 & h2 & _ & Hrem2 & H2).
  destruct (advance_round_returns (final (bot_act rng w1)))
    as (w3 & H3 & Hr3 & Hp3 & Hb3 & Hh3 & _ & Hg3).
  rewrite H2 in *. cbn [final game player bot hand history round_num game_over] in *.
  eexists w3, _, _. split.
  { unfold player_turn, bind. by rewrite H1, H2, H3. }
  rewrite Hp3, Hb3, Hr3, Hh3, Hg3, Hr, Hhist, Hgo. cbn [hand].
  apply list_remove_length in Hrem, Hrem2. rewrite Hh, <- Hbh.
  repeat split; try done.
  - rewrite <- app_assoc. reflexivity.
  - reflexivity.
  - reflexivity.
  - reflexivity.
  - reflexivity.
Qed.

End Turn.

(** ** Round resolver *)

(** C2.  With a card in the player's hand, the player's half of the turn
    returns, logs one record, and changes the scores by the table on (bluff
    intention, called) and by nothing else: bluff and called, opponent +1;
    honest and called, player +1; bluff and not called, player +1; honest and
    not called, no change and the result tag "Honest play (no call)".  The
    rest of the turn never touches the player's score and adds to the
    opponent's only the point of its own bluff. *)
Theorem player_turn_scoring (cl : string) (bluff : bool) (rng : Draws) (w : World) :
  hand (player (game w)) <> [] ->
  exists card w1 row,
    (if bluff then py_min (hand (player (game w)))
     else py_max (hand (player (game w)))) = Some card /\
    player_half cl bluff rng w = Return tt w1 /\
    history (game w1) = history (game w) ++ [row] /\
    let called := fst (decide_call (belief w) card cl (uniform_noise rng)) in
    did_bluff row = int_of_bool bluff /\
    bot_called row = int_of_bool called /\
    match bluff, called with
    | true, true =>
        score (bot (game w1)) = score (bot (game w)) + 1 /\
        score (player (game w1)) = score (player (game w)) /\
        result row = "Bot caught your bluff (+1 Bot)"
    | false, true =>
        score (player (game w1)) = score (player (game w)) + 1 /\
        score (bot (game w1)) = score (bot (game w)) /\
        result row = "Bot wrongly called bluff (+1 You)"
    | true, false =>
        score (player (game w1)) = score (player (game w)) + 1 /\
        score (bot (game w1)) = score (bot (game w)) /\
        result row = "Your bluff succeeded (+1 You)"
    | false, false =>
        score (player (game w1)) = score (player (game w)) /\
        score (bot (game w1)) = score (bot (game w)) /\
        result row = "Honest play (no call)"
    end /\
    let w' := final (player_turn cl bluff rng w) in
    score (player (game w')) = score (player (game w1)) /\
    score (bot (game w')) =
      score (bot (game w1)) +
      match hand (bot (game w)) with
      | [] => 0
      | _ :: _ => int_of_bool (Qltb (rand rng) 0.30)
      end.
Proof.
  intros Hp.
  destruct (player_half_returns cl bluff rng w Hp)
    as (card & h' & w1 & Hsel & _ & H1 & _ & Hsp & Hbh & Hsb & _ & Hhist & _).
  cbv zeta in Hsp, Hsb, Hhist.
  exists card, w1. eexists. split; [done|]. split; [done|]. split; [exact Hhist|].
  cbv zeta. cbn [did_bluff bot_called result]. split; [done|]. split; [done|]. split.
  { rewrite Hsp, Hsb.
    destruct bluff, (decide_call (belief w) card cl (uniform_noise rng)).1;
      cbn; repeat split; lia. }
  destruct (hand (bot (game w))) as [|b0 bs] eqn:Eb.
  - destruct (player_turn_stops_in_bot_act cl bluff rng w Hp Eb) as (w1' & H1' & ->).
    rewrite H1 in H1'. injection H1' as <-. cbn [final]. split; lia.
  - assert (hand (bot (game w1)) <> []) as Hb1 by by rewrite Hbh.
    destruct (bot_act_returns rng w1 Hb1) as (card2 & h2 & _ & _ & H2).
    destruct (advance_round_returns (final (bot_act rng w1)))
      as (w3 & H3 & _ & Hp3 & Hb3 & _).
    rewrite H2 in H3, Hp3, Hb3. cbn [final game player bot] in H3, Hp3, Hb3.
    unfold player_turn, bind. rewrite H1, H2, H3. cbn [final].
    rewrite Hp3, Hb3. cbn [score]. done.
Qed.

Lemma player_turn_scoring_witness :
  exists card w1 row,
    py_max (hand (player (game dealt))) = Some card /\
    player_half "high" false calm dealt = Return tt w1 /\
    history (game w1) = history (game dealt) ++ [row] /\
    result row = "Honest play (no call)".
Proof.
  destruct (player_turn_scoring "high" false calm dealt)
    as (card & w1 & row & Hsel & H1 & Hh & _ & _ & Ht & _); [discriminate|].
  exists card, w1, row. repeat split; [done..|].
  cbn in Hsel. injection Hsel as <-. apply Ht.
Defined.

(** C8.  With a card in the player's hand, the card played is a minimum of
    the hand when the bluff intention is true and a maximum otherwise; the
    hand loses the first occurrence of that value and nothing else, so it
    shrinks by exactly one card, and the log records that strength.  The
    hand stays so to the end of the turn. *)
Theorem player_turn_card (cl : string) (bluff : bool) (rng : Draws) (w : World) :
  hand (player (game w)) <> [] ->
  exists card h1 h2 row w1,
    player_half cl bluff rng w = Return tt w1 /\
    (if bluff then py_min (hand (player (game w)))
     else py_max (hand (player (game w)))) = Some card /\
    Forall (fun y => if bluff then card <= y else y <= card) (hand (player (game w))) /\
    hand (player (game w)) = h1 ++ card :: h2 /\
    ~ In card h1 /\
    hand (player (game w1)) = h1 ++ h2 /\
    length (hand (player (game w))) = S (length (hand (player (game w1)))) /\
    Permutation (hand (player (game w))) (card :: hand (player (game w1))) /\
    history (game w1) = history (game w) ++ [row] /\
    actual_strength row = card /\
    hand (player (game (final (player_turn cl bluff rng w)))) = h1 ++ h2.
Proof.
  intros Hp.
  destruct (select_card bluff _ Hp) as (card & h0 & Hsel & _ & Hin & Hall).
  destruct (list_remove_spec _ _ Hin) as (h1 & h2 & Hsplit & Hnin & Hrem).
  destruct (player_half_returns cl bluff rng w Hp)
    as (card' & h' & w1 & Hsel' & Hrem' & H1 & Hh & _ & Hbh & _ & _ & Hhist & _).
  rewrite Hsel in Hsel'. injection Hsel' as <-.
  rewrite Hrem in Hrem'. injection Hrem' as <-.
  cbv zeta in Hhist.
  exists card, h1, h2. eexists. exists w1.
  split; [done|]. split; [done|]. split; [done|]. split; [done|]. split; [done|].
  split; [done|]. split; [rewrite Hh; by eapply list_remove_length|].
  split; [rewrite Hh; by apply list_remove_Permutation|].
  split; [exact Hhist|]. split; [reflexivity|].
  destruct (hand (bot (game w))) as [|b0 bs] eqn:Eb.
  - destruct (player_turn_stops_in_bot_act cl bluff rng w Hp Eb) as (w1' & H1' & ->).
    rewrite H1 in H1'. by injection H1' as <-.
  - assert (hand (bot (game w1)) <> []) as Hb1 by by rewrite Hbh.
    destruct (bot_act_returns rng w1 Hb1) as (card2 & h2' & _ & _ & H2).
    destruct (advance_round_returns (final (bot_act rng w1)))
      as (w3 & H3 & _ & Hp3 & _).
    rewrite H2 in H3, Hp3. cbn [final game player] in H3, Hp3.
    unfold player_turn, bind. rewrite H1, H2, H3. cbn [final].
    by rewrite Hp3.
Qed.

Lemma player_turn_card_witness :
  exists w1,
    player_half "high" true calm dealt = Return tt w1 /\
    hand (player (game w1)) = [9; 4; 4; 7].
Proof.
  destruct (player_turn_card "high" true calm dealt)
    as (card & h1 & h2 & row & w1 & H1 & _ & _ & _ & _ & Hh & _); [discriminate|].
  exists w1. split; [done|].
  cbn in H1. injection H1 as <-. reflexivity.
Defined.

(** ** Opponent turn *)

(** C9.  With a card in the opponent's hand, [bot_act] returns.  It bluffs
    exactly when the uniform draw from [0, 1) is below 0.30, whatever the
    belief model holds, and leaves the belief model alone.  When bluffing it
    plays a minimum of its hand and claims the entry of [medium, high] at the
    drawn index; when honest it plays a maximum and claims the entry of
    [low, medium, high] at the drawn index; both lists are duplicate-free, so
    a uniform index gives a uniform claim.  Its score grows by one exactly
    when it bluffed, the player is untouched, and one record with
    bot_called = 0 is appended. *)
Theorem bot_act_policy (rng : Draws) (w : World) :
  hand (bot (game w)) <> [] ->
  let bluff := Qltb (rand rng) 0.30 in
  let options := if bluff then ["medium"; "high"] else ["low"; "medium"; "high"] in
  exists card h' row w',
    bot_act rng w = Return tt w' /\
    (bluff = true <-> (rand rng < 0.30)%Q) /\
    (forall ai', game (final (bot_act rng (mkWorld (game w) ai'))) = game w') /\
    belief w' = belief w /\
    In card (hand (bot (game w))) /\
    Forall (fun y => if bluff then card <= y else y <= card) (hand (bot (game w))) /\
    list_remove (hand (bot (game w))) card = Some h' /\
    hand (bot (game w')) = h' /\
    score (bot (game w')) = score (bot (game w)) + (if bluff then 1 else 0) /\
    player (game w') = player (game w) /\
    round_num (game w') = round_num (game w) /\
    game_over (game w') = game_over (game w) /\
    history (game w') = history (game w) ++ [row] /\
    actor row = "bot" /\
    round row = round_num (game w) /\
    actual_strength row = card /\
    did_bluff row = int_of_bool bluff /\
    bot_called row = 0 /\
    claim row = np_choice options (choice_index rng) /\
    In (claim row) options /\
    NoDup options /\
    ((choice_index rng < length options)%nat ->
     claim row = nth (choice_index rng) options "").
Proof.
  intros Hb bluff options.
  destruct (select_card bluff _ Hb) as (card & h0 & Hsel & Hrem & Hin & Hall).
  destruct (bot_act_returns rng w Hb) as (card' & h' & Hsel' & Hrem' & H2).
  fold bluff in Hsel', H2. rewrite Hsel in Hsel'. injection Hsel' as <-.
  rewrite Hrem in Hrem'. injection Hrem' as <-.
  exists card, h0. eexists. eexists. split; [exact H2|].
  split; [apply Qltb_lt|]. split.
  { intros ai'.
    destruct (bot_act_returns rng (mkWorld (game w) ai') Hb) as (c2 & h2 & Hs2 & Hr2 & ->).
    cbn [game] in Hs2, Hr2. fold bluff in Hs2. rewrite Hsel in Hs2. injection Hs2 as <-.
    rewrite Hrem in Hr2. by injection Hr2 as <-. }
  cbn [game belief bot player hand score history round_num game_over
       actor round actual_strength did_bluff bot_called claim].
  fold options.
  assert (length options <> 0%nat) as Hlen by (unfold options; by destruct bluff).
  assert (NoDup options) as Hnd.
  { unfold options. destruct bluff; compute_done. }
  repeat split; try done; try (by destruct bluff); cbn [claim].
  - unfold np_choice. apply nth_In. by apply Nat.mod_upper_bound.
  - intros Hi. unfold np_choice. by rewrite Nat.mod_small.
Qed.

Lemma bot_act_policy_witness :
  exists w', bot_act calm dealt = Return tt w' /\ hand (bot (game w')) = [3; 4; 1; 6].
Proof.
  destruct (bot_act_policy calm dealt)
    as (card & h' & row & w' & H2 & _); [discriminate|].
  exists w'. split; [done|]. cbn in H2. injection H2 as <-. reflexivity.
Defined.

(** ** Rejected turns *)

(** C3, as stated, fails: [player_turn] checks neither the claim nor the
    terminal flag.  On a freshly dealt game the claim "banana", which is none
    of the three categories, is played to the end: no exception, a card
    leaves each hand, two records are logged and the belief model learns the
    key (strong, banana).  On a game marked terminal with cards left the turn
    runs as well. *)
Lemma unchecked_turn_proceeds :
  claim_to_strength "banana" = None /\
  (exists w',
      player_turn "banana" false calm dealt = Return tt w' /\
      hand (player (game w')) = [2; 4; 4; 7] /\
      hand (bot (game w')) = [3; 4; 1; 6] /\
      length (history (game w')) = 2%nat /\
      round_num (game w') = 2 /\
      context_stats (belief dealt) !! ("strong", "banana") = None /\
      context_stats (belief w') !! ("strong", "banana") = Some (0, 1)) /\
  (exists w',
      game_over (game finished_with_cards) = true /\
      player_turn "high" true calm finished_with_cards = Return tt w' /\
      hand (player (game w')) = [] /\
      score (player (game w')) = 3 /\
      length (history (game w')) = 2%nat /\
      round_num (game w') = 12).
Proof.
  split; [reflexivity|]. split; eexists; (split; [reflexivity|]); vm_compute; repeat split.
Qed.

(** C3, amended.  [player_turn] validates nothing itself.  With an empty
    player hand it raises [ValueError], from [min]/[max] of the empty hand,
    before anything was changed: game state, belief model, scores and log are
    as they were.  Neither the terminal flag nor the claim is examined: with
    a card in each hand the turn runs to its end for every claim text and
    every value of the flag, logging two records, advancing the round and
    teaching the belief model the played context. *)
Theorem player_turn_unchecked (cl : string) (bluff : bool) (rng : Draws) (w : World) :
  (hand (player (game w)) = [] ->
   player_turn cl bluff rng w = Raise ValueError w) /\
  (hand (player (game w)) <> [] -> hand (bot (game w)) <> [] ->
   exists w' card,
     player_turn cl bluff rng w = Return tt w' /\
     length (history (game w')) = (length (history (game w)) + 2)%nat /\
     round_num (game w') = round_num (game w) + 1 /\
     belief w' = update_stats (belief w) card cl bluff).
Proof.
  split; [apply player_turn_raises|]. intros Hp Hb.
  destruct (player_turn_returns cl bluff rng w Hp Hb)
    as (w' & r1 & r2 & H & _ & _ & Hr & Hh & _).
  destruct (player_half_returns cl bluff rng w Hp)
    as (card & h' & w1 & _ & _ & H1 & _ & _ & Hbh & _ & _ & _ & _ & Hbel).
  exists w', card. split; [done|]. split; [by rewrite Hh, length_app|].
  split; [done|].
  assert (hand (bot (game w1)) <> []) as Hb1 by by rewrite Hbh.
  destruct (bot_act_returns rng w1 Hb1) as (card2 & h2 & _ & _ & H2).
  destruct (advance_round_returns (final (bot_act rng w1)))
    as (w3 & H3 & _ & _ & _ & _ & Hbel3 & _).
  rewrite H2 in H3, Hbel3. cbn [final belief] in H3, Hbel3.
  unfold player_turn, bind in H. rewrite H1, H2, H3 in H. injection H as <-.
  by rewrite Hbel3.
Qed.

Lemma player_turn_unchecked_witness :
  player_turn "high" false calm (startup [] [1]) = Raise ValueError (startup [] [1]) /\
  (exists w' card,
      player_turn "banana" false calm dealt = Return tt w' /\
      length (history (game w')) = (length (history (game dealt)) + 2)%nat /\
      round_num (game w') = round_num (game dealt) + 1 /\
      belief w' = update_stats (belief dealt) card "banana" false).
Proof.
  split.
  - apply (player_turn_unchecked "high" false calm (startup [] [1])). reflexivity.
  - apply (player_turn_unchecked "banana" false calm dealt); discriminate.
Defined.

(** ** Sessions *)

Section Sessions.

Implicit Types (w : World) (moves : list Move) (n k : nat).

Lemma play_nil w : play [] w = Return tt w.
Proof. reflexivity. Qed.

Lemma play_cons_returned m moves w w' :
  player_turn (move_claim m) (move_bluff m) (move_rng m) w = Return tt w' ->
  play (m :: moves) w = play moves w'.
Proof. intros H. cbn [play]. unfold bind. by rewrite H. Qed.

Lemma play_cons_raised m moves w e w' :
  player_turn (move_claim m) (move_bluff m) (move_rng m) w = Raise e w' ->
  play (m :: moves) w = Raise e w'.
Proof. intros H. cbn [play]. unfold bind. by rewrite H. Qed.

Lemma length_nonempty {A} (l : list A) n : length l = S n -> l <> [].
Proof. by destruct l. Qed.

Lemma draw_hand_ok_length (size : Z) (drawn : list Z) :
  draw_hand_ok size drawn = true -> length drawn = Z.to_nat size.
Proof.
  unfold draw_hand_ok. intros H. apply andb_true_iff in H as [H _].
  apply Z.eqb_eq in H. lia.
Qed.

(** A session on hands of equal size [n]: the first [n] turns run to their
    end, the next one is refused with the state untouched. *)
Lemma play_run moves : forall w n,
  length (hand (player (game w))) = n ->
  length (hand (bot (game w))) = n ->
  let o := play moves w in
  let k := Nat.min (length moves) n in
  returned o = (length moves <=? n)%nat /\
  length (hand (player (game (final o)))) = (n - k)%nat /\
  length (hand (bot (game (final o)))) = (n - k)%nat /\
  round_num (game (final o)) = round_num (game w) + Z.of_nat k /\
  map round (history (game (final o))) =
    map round (history (game w)) ++ round_marks (round_num (game w)) k /\
  map actor (history (game (final o))) =
    map actor (history (game w)) ++ actor_marks k /\
  (game_over (game w) = termination_condition (game w) ->
   game_over (game (final o)) = termination_condition (game (final o))).
Proof.
  induction moves as [|m ms IH]; intros w n Hp Hb; cbv zeta.
  - rewrite play_nil. cbn [final returned length Nat.min round_marks actor_marks].
    rewrite Nat.sub_0_r, Z.add_0_r, !app_nil_r. done.
  - destruct n as [|n'].
    + assert (hand (player (game w)) = []) as E by by destruct (hand (player (game w))).
      rewrite (play_cons_raised m ms w _ _ (player_turn_raises _ _ _ w E)).
      cbn [final returned length Nat.min round_marks actor_marks Nat.leb].
      rewrite Z.add_0_r, !app_nil_r. done.
    + destruct (player_turn_returns (move_claim m) (move_bluff m) (move_rng m) w
                  (length_nonempty _ _ Hp) (length_nonempty _ _ Hb))
        as (w' & r1 & r2 & H & Hp' & Hb' & Hr & Hh & [Hr1 Ha1] & [Hr2 Ha2] & Hg).
      rewrite (play_cons_returned m ms w w' H).
      rewrite Hp in Hp'. rewrite Hb in Hb'. injection Hp' as Hp'. injection Hb' as Hb'.
      destruct (IH w' n' (eq_sym Hp') (eq_sym Hb')) as (I1 & I2 & I3 & I4 & I5 & I6 & I7).
      cbn [length Nat.min Nat.leb Nat.sub round_marks actor_marks].
      rewrite I1, I2, I3, I4, I5, I6, Hr, Hh, !map_app. cbn [map].
      rewrite Hr1, Hr2, Ha1, Ha2, <- !app_assoc. cbn [app].
      repeat split; try done; try lia.
      intros Hinv. apply I7. rewrite Hg.
      fold (termination_condition (game w')).
      destruct (termination_condition (game w')) eqn:Et; [done|].
      rewrite Hinv. unfold termination_condition in *.
      rewrite Hp, Hb. rewrite Hr in Et.
      apply orb_false_iff in Et as [Et _]. apply Z.ltb_ge in Et.
      apply orb_false_iff. split; [apply Z.ltb_ge; lia|]. done.
Qed.

(** The terminal flag survives every operation of the engine, also one that
    raises. *)
Lemma game_over_kept_by_player_half cl bluff rng w :
  game_over (game (final (player_half cl bluff rng w))) = game_over (game w).
Proof.
  destruct (hand (player (game w))) as [|c0 cs] eqn:E.
  - by rewrite player_half_raises.
  - assert (hand (player (game w)) <> []) as Hp by by rewrite E.
    destruct (player_half_returns cl bluff rng w Hp)
      as (card & h' & w1 & _ & _ & -> & _ & _ & _ & _ & _ & _ & Hg & _).
    done.
Qed.

Lemma game_over_kept_by_bot_act rng w :
  game_over (game (final (bot_act rng w))) = game_over (game w).
Proof.
  destruct (hand (bot (game w))) as [|c0 cs] eqn:E.
  - by rewrite bot_act_raises.
  - assert (hand (bot (game w)) <> []) as Hb by by rewrite E.
    destruct (bot_act_returns rng w Hb) as (card & h' & _ & _ & ->). done.
Qed.

Lemma game_over_kept_by_advance_round w :
  game_over (game w) = true -> game_over (game (final (advance_round w))) = true.
Proof.
  intros Hg. destruct (advance_round_returns w) as (w' & -> & _ & _ & _ & _ & _ & Hg').
  cbn [final]. rewrite Hg', Hg. by destruct (_ || _).
Qed.

Lemma game_over_kept_by_player_turn cl bluff rng w :
  game_over (game w) = true ->
  game_over (game (final (player_turn cl bluff rng w))) = true.
Proof.
  intros Hg. unfold player_turn, bind.
  pose proof (game_over_kept_by_player_half cl bluff rng w) as H1.
  destruct (player_half cl bluff rng w) as [[] w1|e w1]; cbn [final] in *; [|congruence].
  pose proof (game_over_kept_by_bot_act rng w1) as H2.
  destruct (bot_act rng w1) as [[] w2|e w2]; cbn [final] in *; [|congruence].
  apply game_over_kept_by_advance_round. congruence.
Qed.

Lemma game_over_kept_by_play moves : forall w,
  game_over (game w) = true -> game_over (game (final (play moves w))) = true.
Proof.
  induction moves as [|m ms IH]; intros w Hg; [done|].
  cbn [play]. unfold bind.
  pose proof (game_over_kept_by_player_turn (move_claim m) (move_bluff m) (move_rng m) w Hg) as H.
  destruct (player_turn _ _ _ w) as [[] w'|e w']; cbn [final] in *; [by apply IH|done].
Qed.

(** The log only grows: every operation leaves the old records in place. *)
Lemma history_extends_player_turn cl bluff rng w :
  exists new,
    history (game (final (player_turn cl bluff rng w))) = history (game w) ++ new.
Proof.
  destruct (hand (player (game w))) as [|c0 cs] eqn:Ep.
  { rewrite player_turn_raises by done. exists []. by rewrite app_nil_r. }
  assert (hand (player (game w)) <> []) as Hp by by rewrite Ep.
  destruct (hand (bot (game w))) as [|b0 bs] eqn:Eb.
  - destruct (player_turn_stops_in_bot_act cl bluff rng w Hp Eb) as (w1 & H1 & ->).
    destruct (player_half_returns cl bluff rng w Hp)
      as (card & h' & w1' & _ & _ & H1' & _ & _ & _ & _ & _ & Hh & _).
    rewrite H1 in H1'. injection H1' as <-. eexists. exact Hh.
  - assert (hand (bot (game w)) <> []) as Hb by by rewrite Eb.
    destruct (player_turn_returns cl bluff rng w Hp Hb)
      as (w' & r1 & r2 & -> & _ & _ & _ & Hh & _).
    eexists. exact Hh.
Qed.

Lemma history_extends_play moves : forall w,
  exists new, history (game (final (play moves w))) = history (game w) ++ new.
Proof.
  induction moves as [|m ms IH]; intros w.
  - exists []. by rewrite app_nil_r.
  - destruct (history_extends_player_turn (move_claim m) (move_bluff m) (move_rng m) w)
      as (new1 & H1).
    cbn [play]. unfold bind.
    destruct (player_turn _ _ _ w) as [[] w'|e w']; cbn [final] in *.
    + destruct (IH w') as (new2 & H2). exists (new1 ++ new2).
      by rewrite H2, H1, app_assoc.
    + by exists new1.
Qed.

Lemma play_app moves1 moves2 w :
  play (moves1 ++ moves2) w =
  match play moves1 w with
  | Return _ w' => play moves2 w'
  | Raise e w' => Raise e w'
  end.
Proof.
  revert w. induction moves1 as [|m ms IH]; intros w; [done|].
  cbn [app play]. unfold bind.
  destruct (player_turn _ _ _ w) as [[] w'|e w']; [apply IH|done].
Qed.

Lemma round_marks_sorted k : forall r,
  Forall (Z.le r) (round_marks r k) /\ StronglySorted Z.le (round_marks r k).
Proof.
  induction k as [|k IH]; intros r; cbn [round_marks].
  - split; constructor.
  - destruct (IH (r + 1)) as [Hall Hs].
    assert (Forall (Z.le r) (round_marks (r + 1) k)) as Hall'.
    { eapply Forall_impl; [exact Hall|]. intros; cbn in *; lia. }
    split.
    + constructor; [lia|]. constructor; [lia|done].
    + constructor; [|constructor; [lia|done]].
      constructor; done.
Qed.

Lemma round_marks_length r k : length (round_marks r k) = (2 * k)%nat.
Proof. revert r. induction k as [|k IH]; intros r; cbn; [done|]. rewrite IH. lia. Qed.

(** The effect of any turn that returns. *)
Lemma player_turn_effect cl bluff rng w w' :
  player_turn cl bluff rng w = Return tt w' ->
  length (hand (player (game w))) = S (length (hand (player (game w')))) /\
  length (hand (bot (game w))) = S (length (hand (bot (game w')))) /\
  round_num (game w') = round_num (game w) + 1.
Proof.
  intros H.
  destruct (hand (player (game w))) as [|c0 cs] eqn:Ep.
  { by rewrite player_turn_raises in H. }
  assert (hand (player (game w)) <> []) as Hp by by rewrite Ep.
  destruct (hand (bot (game w))) as [|b0 bs] eqn:Eb.
  { destruct (player_turn_stops_in_bot_act cl bluff rng w Hp Eb) as (w1 & _ & H').
    by rewrite H' in H. }
  assert (hand (bot (game w)) <> []) as Hb by by rewrite Eb.
  destruct (player_turn_returns cl bluff rng w Hp Hb)
    as (w'' & r1 & r2 & H' & Hp' & Hb' & Hr & _).
  rewrite H' in H. injection H as <-. rewrite Ep in Hp'. rewrite Eb in Hb'. done.
Qed.

End Sessions.

(** ** Termination *)

(** C6.  In every session on a freshly dealt game, after any number of
    [player_turn] calls the terminal flag is set exactly when the round
    number exceeds 10 or both hands are empty; as this holds after every
    prefix of the session, the flag is set at the first round end at which
    the condition holds.  Once the flag is set, every operation of the engine,
    whether it returns or raises, and every continuation of the session
    leaves it set. *)
Theorem terminal_flag_exact (ph bh : list Z) (ai : BluffBotAI) (moves : list Move) :
  draw_hand_ok HAND_SIZE ph = true -> draw_hand_ok HAND_SIZE bh = true ->
  let w := final (play moves (mkWorld (init_game ph bh) ai)) in
  game_over (game w) = termination_condition (game w) /\
  (game_over (game w) = true <->
   MAX_ROUNDS < round_num (game w) \/
   (hand (player (game w)) = [] /\ hand (bot (game w)) = [])) /\
  (forall more,
      game_over (game w) = true -> game_over (game (final (play more w))) = true) /\
  (forall w0 cl bluff rng,
      game_over (game w0) = true ->
      game_over (game (final (player_half cl bluff rng w0))) = true /\
      game_over (game (final (bot_act rng w0))) = true /\
      game_over (game (final (advance_round w0))) = true /\
      game_over (game (final (player_turn cl bluff rng w0))) = true).
Proof.
  intros Hp Hb w. apply draw_hand_ok_length in Hp, Hb.
  destruct (play_run moves (mkWorld (init_game ph bh) ai) (Z.to_nat HAND_SIZE) Hp Hb)
    as (_ & _ & _ & _ & _ & _ & Hinv).
  specialize (Hinv ltac:(cbn; by rewrite Hp, Hb)). fold w in Hinv.
  split; [done|]. split; [|split].
  - rewrite Hinv. unfold termination_condition.
    rewrite orb_true_iff, andb_true_iff, Z.ltb_lt, !Z.eqb_eq.
    destruct (hand (player (game w))), (hand (bot (game w))); cbn [length];
      split; intros [?|[? ?]]; (by left) || (right; split; (done || lia)).
  - intros more. apply game_over_kept_by_play.
  - intros w0 cl bluff rng Hg. repeat split.
    + by rewrite game_over_kept_by_player_half.
    + by rewrite game_over_kept_by_bot_act.
    + by apply game_over_kept_by_advance_round.
    + by apply game_over_kept_by_player_turn.
Qed.

Lemma terminal_flag_exact_witness :
  let w := final (play five_honest
                    (mkWorld (init_game [2; 9; 4; 4; 7] [3; 4; 8; 1; 6]) new_BluffBotAI)) in
  game_over (game w) = termination_condition (game w).
Proof.
  exact (proj1 (terminal_flag_exact [2; 9; 4; 4; 7] [3; 4; 8; 1; 6] new_BluffBotAI
                  five_honest eq_refl eq_refl)).
Defined.

(** ** History log *)

(** C7.  After N completed rounds of a freshly dealt game (N <= 5 turns, all
    of which return) the log holds exactly 2 N records: for each round, in
    order, the record of the player and then the record of the opponent,
    both carrying the number of that round, so the round column is
    1, 1, 2, 2, ..., N, N and is non-decreasing.  The log after the first k
    rounds is the first 2 k records of the final log, and no operation ever
    changes or drops a record that is already there. *)
Theorem history_two_records_per_round
    (ph bh : list Z) (ai : BluffBotAI) (moves : list Move) :
  draw_hand_ok HAND_SIZE ph = true -> draw_hand_ok HAND_SIZE bh = true ->
  (length moves <= Z.to_nat HAND_SIZE)%nat ->
  let w0 := mkWorld (init_game ph bh) ai in
  let N := length moves in
  exists w',
    play moves w0 = Return tt w' /\
    length (history (game w')) = (2 * N)%nat /\
    map round (history (game w')) = round_marks 1 N /\
    map actor (history (game w')) = actor_marks N /\
    StronglySorted Z.le (map round (history (game w'))) /\
    (forall k, (k <= N)%nat ->
       history (game (final (play (take k moves) w0))) =
       take (2 * k) (history (game w'))) /\
    (forall w cl bluff rng,
       exists new,
         history (game (final (player_turn cl bluff rng w))) = history (game w) ++ new).
Proof.
  intros Hp Hb HN w0 N. apply draw_hand_ok_length in Hp, Hb.
  destruct (play_run moves w0 (Z.to_nat HAND_SIZE) Hp Hb)
    as (Hret & _ & _ & _ & Hround & Hactor & _).
  cbv zeta in Hret, Hround, Hactor.
  rewrite Nat.min_l in Hround, Hactor by done.
  destruct (play moves w0) as [[] w'|e w'] eqn:Hplay; cbn [returned final] in *.
  2: { symmetry in Hret. apply Nat.leb_le in HN. congruence. }
  exists w'. split; [done|].
  assert (length (history (game w')) = (2 * N)%nat) as Hlen.
  { rewrite <- (length_map round), Hround. cbn [app]. apply round_marks_length. }
  split; [done|]. split; [done|]. split; [done|]. split; [|split].
  - rewrite Hround. apply round_marks_sorted.
  - intros k Hk.
    destruct (play_run (take k moves) w0 (Z.to_nat HAND_SIZE) Hp Hb)
      as (Hretk & _ & _ & _ & Hroundk & _).
    cbv zeta in Hretk, Hroundk.
    assert (length (take k moves) = k) as Hlk by (rewrite length_take; lia).
    rewrite Hlk in Hretk, Hroundk. rewrite Nat.min_l in Hroundk by lia.
    assert (length (history (game (final (play (take k moves) w0)))) = (2 * k)%nat) as Hlenk.
    { rewrite <- (length_map round), Hroundk. cbn [app]. apply round_marks_length. }
    pose proof (play_app (take k moves) (drop k moves) w0) as Happ.
    rewrite take_drop, Hplay in Happ.
    destruct (play (take k moves) w0) as [[] wk|e wk] eqn:Hk'; cbn [returned final] in *.
    2: { symmetry in Hretk. assert ((k <=? Z.to_nat HAND_SIZE)%nat = true)
           by (apply Nat.leb_le; lia). congruence. }
    destruct (history_extends_play (drop k moves) wk) as (new & Hnew).
    rewrite <- Happ in Hnew. cbn [final] in Hnew.
    rewrite Hnew, <- Hlenk. by rewrite take_app_length.
  - intros w cl bluff rng. apply history_extends_player_turn.
Qed.

Lemma history_two_records_per_round_witness :
  exists w',
    play five_honest (mkWorld (init_game [2; 9; 4; 4; 7] [3; 4; 8; 1; 6]) new_BluffBotAI)
    = Return tt w' /\
    map round (history (game w')) = [1; 1; 2; 2; 3; 3; 4; 4; 5; 5].
Proof.
  destruct (history_two_records_per_round [2; 9; 4; 4; 7] [3; 4; 8; 1; 6] new_BluffBotAI
              five_honest eq_refl eq_refl)
    as (w' & H & _ & Hr & _); [vm_compute; lia|].
  exists w'. split; [exact H | exact Hr].
Defined.

(** ** Hand depletion *)

(** C10.  In a session on a freshly dealt game (both hands of size 5, round
    number 1) the first five [player_turn] calls return and any further call
    is refused.  After k <= 5 turns each hand holds 5 - k cards and the round
    number is 1 + k; the terminal flag is set exactly from the fifth turn on,
    when both hands are empty and the round number is 6.  The round number
    never exceeds the limit of 10, so the limit is never what sets the flag.
    In any state, a turn that returns has taken exactly one card from each
    hand and added exactly one to the round number. *)
Theorem fresh_game_ends_after_five_rounds
    (ph bh : list Z) (ai : BluffBotAI) (moves : list Move) :
  draw_hand_ok HAND_SIZE ph = true -> draw_hand_ok HAND_SIZE bh = true ->
  let o := play moves (mkWorld (init_game ph bh) ai) in
  let k := Nat.min (length moves) 5 in
  returned o = (length moves <=? 5)%nat /\
  length (hand (player (game (final o)))) = (5 - k)%nat /\
  length (hand (bot (game (final o)))) = (5 - k)%nat /\
  round_num (game (final o)) = 1 + Z.of_nat k /\
  game_over (game (final o)) = (5 <=? length moves)%nat /\
  (MAX_ROUNDS <? round_num (game (final o))) = false /\
  ((5 <= length moves)%nat ->
   hand (player (game (final o))) = [] /\
   hand (bot (game (final o))) = [] /\
   round_num (game (final o)) = 6 /\
   game_over (game (final o)) = true) /\
  (forall w cl bluff rng w',
     player_turn cl bluff rng w = Return tt w' ->
     length (hand (player (game w))) = S (length (hand (player (game w')))) /\
     length (hand (bot (game w))) = S (length (hand (bot (game w')))) /\
     round_num (game w') = round_num (game w) + 1).
Proof.
  intros Hp Hb o k. apply draw_hand_ok_length in Hp, Hb.
  destruct (play_run moves (mkWorld (init_game ph bh) ai) (Z.to_nat HAND_SIZE) Hp Hb)
    as (Hret & Hph & Hbh & Hr & _ & _ & Hinv).
  specialize (Hinv ltac:(cbn; by rewrite Hp, Hb)).
  change (Z.to_nat HAND_SIZE) with 5%nat in *. fold o k in Hret, Hph, Hbh, Hr, Hinv.
  cbn [game round_num init_game] in Hr.
  assert ((MAX_ROUNDS <? round_num (game (final o))) = false) as Hlim.
  { apply Z.ltb_ge. rewrite Hr. unfold MAX_ROUNDS. lia. }
  assert (game_over (game (final o)) = (5 <=? length moves)%nat) as Hg.
  { rewrite Hinv. unfold termination_condition. rewrite Hlim, Hph, Hbh. cbn [orb].
    destruct (5 <=? length moves)%nat eqn:E.
    - apply Nat.leb_le in E. replace (5 - k)%nat with 0%nat by lia. done.
    - apply Nat.leb_gt in E. replace (5 - k)%nat with (S (4 - k)) by lia. done. }
  split; [done|]. split; [done|]. split; [done|]. split; [done|]. split; [done|].
  split; [done|]. split.
  - intros H5. replace (5 - k)%nat with 0%nat in Hph, Hbh by lia.
    apply nil_length_inv in Hph, Hbh. rewrite Hg, Hr.
    repeat split; try done; [lia|]. by apply Nat.leb_le.
  - intros w cl bluff rng w'. apply player_turn_effect.
Qed.

Lemma fresh_game_ends_after_five_rounds_witness :
  let o := play five_honest
             (mkWorld (init_game [2; 9; 4; 4; 7] [3; 4; 8; 1; 6]) new_BluffBotAI) in
  round_num (game (final o)) = 6 /\ game_over (game (final o)) = true.
Proof.
  destruct (fresh_game_ends_after_five_rounds [2; 9; 4; 4; 7] [3; 4; 8; 1; 6]
              new_BluffBotAI five_honest eq_refl eq_refl)
    as (_ & _ & _ & _ & _ & _ & H & _).
  destruct H as (_ & _ & Hr & Hg); [vm_compute; lia|]. by split.
Defined.

(** ** Exact rationals against binary64 *)

Section Binary64Facts.

(** The double chosen for the literal 0.35 is within half a unit in the last
    place of 35/100. *)
Lemma binary64_prior_literal :
  (Qabs (Binary64.to_Q Binary64.lit_0_35 - 0.35) <= 2 ^ (-55))%Q.
Proof. apply Qle_bool_iff. vm_compute. reflexivity. Qed.

(** Six bluffs in seventeen observations: the quotient 7/20 rounds to the
    very double of the literal 0.35. *)
Lemma binary64_collision :
  Binary64.bluff_probability (Some (6, 17)) = Binary64.bluff_probability None.
Proof. vm_compute. reflexivity. Qed.

(** No bluff in three observations: the confidence is 16 in binary64 too. *)
Lemma binary64_sixth :
  Binary64.suspicion (Binary64.bluff_probability (Some (0, 3))) = 16.
Proof. vm_compute. reflexivity. Qed.

(** For every context observed fewer than 47 times the confidence computed
    on doubles is the one computed on exact rationals. *)
Lemma binary64_agrees (b t : nat) :
  (b <= t)%nat -> (t < 47)%nat -> Binary64.agrees b t = true.
Proof.
  intros Hb Ht.
  assert (Binary64.agrees_below 47 = true) as H by (vm_compute; reflexivity).
  unfold Binary64.agrees_below in H.
  rewrite List.forallb_forall in H.
  specialize (H t ltac:(apply List.in_seq; lia)).
  rewrite List.forallb_forall in H.
  apply H. apply List.in_seq. lia.
Qed.

(** At 47 observations with 28 bluffs the estimate is 29/50; the double
    product 0.58 * 100 falls just below 58 and is truncated to 57. *)
Lemma binary64_first_divergence :
  Binary64.suspicion (Binary64.bluff_probability (Some (28, 47))) = 57 /\
  py_int (inject_Z (28 + 1) / inject_Z (47 + 3) * 100)%Q = 58.
Proof. vm_compute. split; reflexivity. Qed.

(** The double chosen for the literal 0.55 is within half a unit in the last
    place of 55/100. *)
Lemma binary64_threshold_literal :
  (Qabs (Binary64.to_Q Binary64.lit_0_55 - 0.55) <= 2 ^ (-54))%Q.
Proof. apply Qle_bool_iff. vm_compute. reflexivity. Qed.

(** At an estimate of exactly 3/5 and the noise one step above -0.05 the
    exact sum exceeds the threshold and the rounded sum of doubles does
    not. *)
Lemma binary64_call_boundary :
  let ai := observe_all (repeat (2, "high", true) 2) new_BluffBotAI in
  let noise := S754_finite true 7205759403792793 (-57) in
  (bluff_probability ai 2 "high" == 3 # 5)%Q /\
  (-0.05 < Binary64.to_Q noise)%Q /\
  fst (decide_call ai 2 "high" (Binary64.to_Q noise)) = true /\
  fst (Binary64.decide_call ai 2 "high" noise) = false.
Proof. vm_compute. repeat split; reflexivity. Qed.

End Binary64Facts.

(** * Further properties of the engine *)

(** ** Context classifier *)

(** X1.  The three buckets are cut at 3 and 7, every integer falls in exactly one
    of them, and the bucket never gets weaker as the strength grows. *)
Theorem strength_bucket_thresholds (s1 s2 : Z) :
  (strength_bucket s1 = "weak" <-> s1 <= 3) /\
  (strength_bucket s1 = "medium" <-> 4 <= s1 <= 7) /\
  (strength_bucket s1 = "strong" <-> 8 <= s1) /\
  (s1 <= s2 -> bucket_rank (strength_bucket s1) <= bucket_rank (strength_bucket s2)).
Proof.
  unfold strength_bucket.
  destruct (s1 <=? 3) eqn:E1; destruct (s1 <=? 7) eqn:E2;
    destruct (s2 <=? 3) eqn:E3; destruct (s2 <=? 7) eqn:E4;
    rewrite ?Z.leb_le, ?Z.leb_gt in *; cbn;
    repeat split; intros; try done; try lia.
Qed.

Lemma strength_bucket_thresholds_witness :
  bucket_rank (strength_bucket 3) <= bucket_rank (strength_bucket 8).
Proof. apply (strength_bucket_thresholds 3 8). lia. Defined.

(** X2.  [claim_to_strength] answers for the three claim categories only, every
    other text is a missing key; the nominal strength of low, medium and high
    lies in the weak, medium and strong bucket. *)
Theorem claim_to_strength_domain (c : string) :
  match claim_to_strength c with
  | Some v =>
      (c = "low" /\ v = 3 /\ strength_bucket v = "weak") \/
      (c = "medium" /\ v = 6 /\ strength_bucket v = "medium") \/
      (c = "high" /\ v = 9 /\ strength_bucket v = "strong")
  | None => c <> "low" /\ c <> "medium" /\ c <> "high"
  end.
Proof.
  unfold claim_to_strength.
  destruct (decide (c = "low")) as [->|Hl]; [left; done|].
  destruct (decide (c = "medium")) as [->|Hm]; [right; left; done|].
  destruct (decide (c = "high")) as [->|Hh]; [right; right; done|].
  rewrite !lookup_insert_ne, lookup_singleton_ne by done. done.
Qed.

(** ** Learning *)

Section Learning.

Implicit Types (ai : BluffBotAI) (obs : list observation).

Lemma BluffBotAI_eq ai1 ai2 :
  (forall key, context_stats ai1 !! key = context_stats ai2 !! key) -> ai1 = ai2.
Proof. destruct ai1, ai2. cbn. intros H. f_equal. by apply map_eq. Qed.

Lemma update_stats_comm ai s1 c1 d1 s2 c2 d2 :
  update_stats (update_stats ai s1 c1 d1) s2 c2 d2 =
  update_stats (update_stats ai s2 c2 d2) s1 c1 d1.
Proof.
  apply BluffBotAI_eq. intros key. rewrite !update_stats_lookup.
  destruct (decide (context_key s2 c2 = key)), (decide (context_key s1 c1 = key));
    simpl; try done.
  match goal with
  | |- Some (?a, ?b) = Some (?a', ?b') =>
      replace a with a' by lia; replace b with b' by lia; reflexivity
  end.
Qed.

Lemma observe_comm ai o1 o2 :
  observe (observe ai o1) o2 = observe (observe ai o2) o1.
Proof. destruct o1 as [[s1 c1] d1], o2 as [[s2 c2] d2]. apply update_stats_comm. Qed.

Lemma update_stats_observe_all obs s c d :
  update_stats (observe_all obs new_BluffBotAI) s c d =
  observe_all (obs ++ [(s, c, d)]) new_BluffBotAI.
Proof. by rewrite observe_all_snoc. Qed.

Lemma Qdiv_lt_cross (n1 d1 n2 d2 : Z) :
  0 < d1 -> 0 < d2 -> n1 * d2 < n2 * d1 ->
  (inject_Z n1 / inject_Z d1 < inject_Z n2 / inject_Z d2)%Q.
Proof.
  intros H1 H2 H.
  destruct d1 as [|p1|p1]; try lia. destruct d2 as [|p2|p2]; try lia.
  unfold Qlt, Qdiv, Qmult, Qinv, inject_Z. cbn. lia.
Qed.

End Learning.

(** X3.  An update reaches one context only.  The statistic of the played context
    grows by one observation (and by one bluff when it was one), starting
    from nothing when the context is new; the statistic, the estimate and the
    decision for every other context are as before. *)
Theorem update_stats_local (ai : BluffBotAI) (s : Z) (c : string) (d : bool)
    (s' : Z) (c' : string) (noise : Q) :
  context_key s c <> context_key s' c' ->
  context_stats (update_stats ai s c d) !! context_key s c =
    Some (fst (default (0, 0) (context_stats ai !! context_key s c)) + int_of_bool d,
          snd (default (0, 0) (context_stats ai !! context_key s c)) + 1) /\
  context_stats (update_stats ai s c d) !! context_key s' c' =
    context_stats ai !! context_key s' c' /\
  bluff_probability (update_stats ai s c d) s' c' = bluff_probability ai s' c' /\
  decide_call (update_stats ai s c d) s' c' noise = decide_call ai s' c' noise.
Proof.
  intros Hne.
  assert (context_stats (update_stats ai s c d) !! context_key s' c' =
          context_stats ai !! context_key s' c') as Hl.
  { rewrite update_stats_lookup. by destruct (decide _). }
  assert (bluff_probability (update_stats ai s c d) s' c' = bluff_probability ai s' c') as Hp.
  { unfold bluff_probability. by rewrite Hl. }
  repeat split; try done.
  - rewrite update_stats_lookup. by destruct (decide _).
  - unfold decide_call. by rewrite Hp.
Qed.

Lemma update_stats_local_witness :
  bluff_probability (update_stats new_BluffBotAI 2 "high" true) 9 "high"
  = bluff_probability new_BluffBotAI 9 "high".
Proof.
  apply (update_stats_local new_BluffBotAI 2 "high" true 9 "high" 0). discriminate.
Defined.

(** X4.  The belief model does not depend on the order in which it was shown the
    plays: two sequences of observations that are permutations of each other
    leave the same statistics. *)
Theorem observe_all_permutation (obs obs' : list observation) (ai : BluffBotAI) :
  Permutation obs obs' -> observe_all obs ai = observe_all obs' ai.
Proof.
  intros H. revert ai. induction H as [|o l l' _ IH|o1 o2 l|l l' l'' _ IH1 _ IH2]; intros ai.
  - done.
  - cbn. apply IH.
  - cbn. by rewrite observe_comm.
  - by rewrite IH1.
Qed.

Lemma observe_all_permutation_witness :
  observe_all [(2, "high", true); (9, "low", false)] new_BluffBotAI =
  observe_all [(9, "low", false); (2, "high", true)] new_BluffBotAI.
Proof. apply observe_all_permutation. apply perm_swap. Defined.

(** X5.  Evidence moves the estimate the right way.  Whatever the belief model
    was shown before, one more bluff in a context strictly raises the
    estimate for that context and one more honest play strictly lowers it;
    this includes the first observation, which replaces the prior 0.35 by
    1/2 or 1/4. *)
Theorem evidence_moves_estimate (obs : list observation) (s : Z) (c : string) :
  let ai := observe_all obs new_BluffBotAI in
  (bluff_probability ai s c < bluff_probability (update_stats ai s c true) s c)%Q /\
  (bluff_probability (update_stats ai s c false) s c < bluff_probability ai s c)%Q.
Proof.
  intros ai. unfold ai. rewrite !update_stats_observe_all.
  destruct (observed_estimate obs s c) as (Hc & -> & _).
  destruct (observed_estimate (obs ++ [(s, c, true)]) s c) as (_ & -> & _).
  destruct (observed_estimate (obs ++ [(s, c, false)]) s c) as (_ & -> & _).
  rewrite !seen_snoc, !seen_bluffs_snoc. cbn [obs_key obs_bluff].
  destruct (decide (context_key s c = context_key s c)); [|done].
  cbn [int_of_bool].
  set (t := seen (context_key s c) obs) in *.
  set (b := seen_bluffs (context_key s c) obs) in *.
  destruct (t + 1 =? 0) eqn:E1; [apply Z.eqb_eq in E1; lia|].
  destruct (t =? 0) eqn:E0.
  - apply Z.eqb_eq in E0. assert (b = 0) as -> by lia. rewrite E0.
    split; reflexivity.
  - apply Z.eqb_neq in E0. split; apply Qdiv_lt_cross; nia.
Qed.


(** ** Calling *)

Section Calling.

Lemma py_int_lower (x : Q) (k : Z) : 0 < k -> k <= py_int x -> (inject_Z k <= x)%Q.
Proof.
  destruct x as [n d]. unfold py_int, Qle. cbn. intros Hk H.
  destruct (Z.lt_ge_cases n 0) as [Hn|Hn].
  - exfalso. replace n with (- - n) in H by lia.
    rewrite Z.quot_opp_l in H by lia.
    pose proof (Z.quot_pos (- n) (Z.pos d) ltac:(lia) ltac:(lia)). lia.
  - rewrite Z.quot_div_nonneg in H by lia.
    pose proof (Z.mul_div_le n (Z.pos d) ltac:(lia)). nia.
Qed.

Lemma py_int_upper (x : Q) (k : Z) : 0 <= k -> py_int x <= k -> (x < inject_Z (k + 1))%Q.
Proof.
  destruct x as [n d]. unfold py_int, Qlt. cbn. intros Hk H.
  destruct (Z.lt_ge_cases n 0) as [Hn|Hn]; [nia|].
  rewrite Z.quot_div_nonneg in H by lia.
  pose proof (Z.div_mod n (Z.pos d) ltac:(lia)).
  pose proof (Z.mod_pos_bound n (Z.pos d) ltac:(lia)). nia.
Qed.

Lemma call_decided (noise q : Q) :
  (-0.05 <= noise <= 0.05)%Q ->
  ((0.60 < q)%Q -> Qgtb (q + noise) 0.55 = true) /\
  ((q < 0.50)%Q -> Qgtb (q + noise) 0.55 = false).
Proof.
  intros [Hlo Hhi]. split; intros Hq.
  - apply Qgtb_lt. lra.
  - apply not_true_iff_false. rewrite Qgtb_lt. lra.
Qed.

End Calling.

(** X6.  The noise only matters in a band.  With the noise in its range
    [-0.05, 0.05], a play is always called when the estimate exceeds 0.60 and
    never when it is below 0.50; in terms of the confidence that is reported,
    61 or more means called and 49 or less means not called.  A context the
    belief model has never seen is reported with confidence 35 and is never
    called. *)
Theorem call_bands (ai : BluffBotAI) (s : Z) (c : string) (noise : Q) :
  (-0.05 <= noise <= 0.05)%Q ->
  let p := bluff_probability ai s c in
  let call := fst (decide_call ai s c noise) in
  let suspicion := snd (decide_call ai s c noise) in
  ((0.60 < p)%Q -> call = true) /\
  ((p < 0.50)%Q -> call = false) /\
  (61 <= suspicion -> call = true) /\
  (suspicion <= 49 -> call = false) /\
  (context_stats ai !! context_key s c = None -> call = false /\ suspicion = 35).
Proof.
  intros Hn p call suspicion.
  assert (forall q, (0.60 < q)%Q -> Qgtb (q + noise) 0.55 = true) as Hup.
  { intros q. by apply call_decided. }
  assert (forall q, (q < 0.50)%Q -> Qgtb (q + noise) 0.55 = false) as Hdown.
  { intros q. by apply call_decided. }
  unfold call, suspicion, decide_call. cbn [fst snd]. fold p.
  repeat split.
  - apply Hup.
  - apply Hdown.
  - intros H. apply Hup. apply py_int_lower in H; [|lia].
    assert (inject_Z 61 == 61)%Q by reflexivity. lra.
  - intros H. apply Hdown. apply py_int_upper in H; [|lia].
    assert (inject_Z (49 + 1) == 50)%Q by reflexivity. lra.
  - apply Hdown. unfold p, bluff_probability. rewrite H. reflexivity.
  - unfold p, bluff_probability. rewrite H. reflexivity.
Qed.

Lemma call_bands_witness :
  fst (decide_call new_BluffBotAI 9 "high" 0.05) = false.
Proof.
  apply (call_bands new_BluffBotAI 9 "high" 0.05); [split; discriminate|reflexivity].
Defined.

(** X7.  One-sided habits are read correctly.  With the noise in its range, a
    context in which the player never bluffed is never called, however often
    it was seen, and a context in which the player bluffed every time is
    always called once it was seen three times. *)
Theorem one_sided_contexts (obs : list observation) (s : Z) (c : string) (noise : Q) :
  (-0.05 <= noise <= 0.05)%Q ->
  let ai := observe_all obs new_BluffBotAI in
  let t := seen (context_key s c) obs in
  let b := seen_bluffs (context_key s c) obs in
  (b = 0 -> fst (decide_call ai s c noise) = false) /\
  (b = t -> 3 <= t -> fst (decide_call ai s c noise) = true).
Proof.
  intros Hn ai t b.
  destruct (call_decided noise (bluff_probability ai s c) Hn) as (Hup & Hdown).
  destruct (observed_estimate obs s c) as (Hc & Hp & _). fold ai t b in Hc, Hp.
  unfold decide_call. cbn [fst].
  split.
  - intros Hb. apply Hdown. rewrite Hp, Hb.
    destruct (t =? 0); [reflexivity|].
    apply Qlt_shift_div_r; [apply inject_Z_pos; lia|].
    unfold Qlt. cbn. lia.
  - intros Hb Ht. apply Hup. rewrite Hp, Hb.
    destruct (t =? 0) eqn:E; [apply Z.eqb_eq in E; lia|].
    apply Qlt_shift_div_l; [apply inject_Z_pos; lia|].
    unfold Qlt. cbn. lia.
Qed.

Lemma one_sided_contexts_witness :
  fst (decide_call (observe_all (repeat (2, "high", true) 3) new_BluffBotAI)
                   2 "high" (-0.05)) = true.
Proof.
  apply (one_sided_contexts (repeat (2, "high", true) 3) 2 "high" (-0.05));
    [split; discriminate | reflexivity | vm_compute; discriminate].
Defined.

(** ** The log as a ledger *)

Section Ledger.

Implicit Types (w : World) (rows : list Row) (moves : list Move).

Lemma points_app (point : Row -> Z) rows1 rows2 :
  points point (rows1 ++ rows2) = points point rows1 + points point rows2.
Proof.
  unfold points. induction rows1 as [|r rs IH]; cbn [app fold_right]; [done|].
  rewrite IH. lia.
Qed.

Lemma rows_of_app who rows1 rows2 :
  rows_of who (rows1 ++ rows2) = rows_of who rows1 ++ rows_of who rows2.
Proof. apply List.filter_app. Qed.

Lemma played_app who rows1 rows2 :
  played who (rows1 ++ rows2) = played who rows1 ++ played who rows2.
Proof. unfold played. by rewrite rows_of_app, map_app. Qed.

Lemma logged_observations_app rows1 rows2 :
  logged_observations (rows1 ++ rows2) =
  logged_observations rows1 ++ logged_observations rows2.
Proof. unfold logged_observations. by rewrite rows_of_app, map_app. Qed.

Lemma observe_all_app (obs1 obs2 : list observation) ai :
  observe_all (obs1 ++ obs2) ai = observe_all obs2 (observe_all obs1 ai).
Proof. apply fold_left_app. Qed.

Lemma int_of_bool_is_one (b : bool) : (int_of_bool b =? 1) = b.
Proof. by destruct b. Qed.

Lemma int_of_bool_flag (b : bool) : int_of_bool b = 0 \/ int_of_bool b = 1.
Proof. destruct b; [by right|by left]. Qed.

(** Everything one turn changes, read off the rows it logs.  This covers the
    turn that returns, the turn that is refused at once, and the turn that
    stops in [bot_act]. *)
Lemma player_turn_ledger cl bluff rng w :
  let w' := final (player_turn cl bluff rng w) in
  exists new,
    history (game w') = history (game w) ++ new /\
    belief w' = observe_all (logged_observations new) (belief w) /\
    score (player (game w')) = score (player (game w)) + points player_point new /\
    score (bot (game w')) = score (bot (game w)) + points bot_point new /\
    Permutation (hand (player (game w)))
                (played "player" new ++ hand (player (game w'))) /\
    Permutation (hand (bot (game w)))
                (played "bot" new ++ hand (bot (game w'))) /\
    Forall engine_row new.
Proof.
  cbv zeta.
  destruct (hand (player (game w))) as [|c0 cs] eqn:Ep.
  { rewrite player_turn_raises by done. exists []. cbn [final].
    rewrite app_nil_r, Ep. cbn. repeat split; (lia || done). }
  assert (hand (player (game w)) <> []) as Hp by by rewrite Ep.
  rewrite <- Ep. clear Ep c0 cs.
  destruct (player_half_returns cl bluff rng w Hp)
    as (card & h' & w1 & _ & Hrem & H1 & Hh & Hsp & Hbh & Hsb & _ & Hhist & _ & Hbel).
  cbv zeta in Hsp, Hsb, Hhist.
  remember (decide_call (belief w) card cl (uniform_noise rng)).1 as called eqn:Ecalled.
  clear Ecalled. apply list_remove_Permutation in Hrem.
  destruct (decide (hand (bot (game w)) = [])) as [Eb|Hb].
  - destruct (player_turn_stops_in_bot_act cl bluff rng w Hp Eb) as (w1' & H1' & ->).
    rewrite H1 in H1'. injection H1' as <-. cbn [final].
    eexists. split; [exact Hhist|].
    rewrite Hbel, Hsp, Hsb, Hh, Hbh, Eb.
    unfold logged_observations, played, rows_of, points, player_point, bot_point,
      is_actor, row_observation.
    cbn. rewrite int_of_bool_is_one.
    repeat split; try done.
    + destruct bluff, called; cbn; lia.
    + destruct bluff, called; cbn; lia.
    + constructor; [|constructor].
      repeat split; [apply int_of_bool_flag..|by left].
  - assert (hand (bot (game w1)) <> []) as Hb1 by by rewrite Hbh.
    destruct (bot_act_returns rng w1 Hb1) as (card2 & h2 & _ & Hrem2 & H2).
    apply list_remove_Permutation in Hrem2.
    destruct (advance_round_returns (final (bot_act rng w1)))
      as (w3 & H3 & _ & Hp3 & Hb3 & Hh3 & Hbel3 & _).
    rewrite H2 in H3, Hp3, Hb3, Hh3, Hbel3.
    cbn [final game player bot history belief] in H3, Hp3, Hb3, Hh3, Hbel3.
    unfold player_turn, bind. rewrite H1, H2, H3. cbn [final].
    rewrite Hhist, <- app_assoc in Hh3. cbn [app] in Hh3.
    eexists. split; [exact Hh3|].
    rewrite Hbel3, Hbel, Hp3, Hb3, Hsp, Hsb. cbn [score hand]. rewrite Hh.
    rewrite Hbh in Hrem2.
    unfold logged_observations, played, rows_of, points, player_point, bot_point,
      is_actor, row_observation.
    cbn. rewrite int_of_bool_is_one.
    repeat split; try done.
    + destruct bluff, called; cbn; lia.
    + destruct bluff, called, (Qltb (rand rng) 0.30); cbn; lia.
    + constructor; [|constructor; [|constructor]].
      * repeat split; [apply int_of_bool_flag..|by left].
      * repeat split; [apply int_of_bool_flag|by left|by right].
Qed.

Lemma play_ledger moves : forall w,
  let w' := final (play moves w) in
  exists new,
    history (game w') = history (game w) ++ new /\
    belief w' = observe_all (logged_observations new) (belief w) /\
    score (player (game w')) = score (player (game w)) + points player_point new /\
    score (bot (game w')) = score (bot (game w)) + points bot_point new /\
    Permutation (hand (player (game w)))
                (played "player" new ++ hand (player (game w'))) /\
    Permutation (hand (bot (game w)))
                (played "bot" new ++ hand (bot (game w'))) /\
    Forall engine_row new.
Proof.
  induction moves as [|m ms IH]; intros w; cbv zeta.
  - exists []. cbn. rewrite app_nil_r. repeat split; (lia || done).
  - destruct (player_turn_ledger (move_claim m) (move_bluff m) (move_rng m) w)
      as (new1 & A1 & A2 & A3 & A4 & A5 & A6 & A7).
    cbn [play]. unfold bind.
    destruct (player_turn _ _ _ w) as [[] w1|e w1]; cbn [final] in *.
    + destruct (IH w1) as (new2 & B1 & B2 & B3 & B4 & B5 & B6 & B7).
      exists (new1 ++ new2).
      rewrite B1, A1, B2, A2, B3, A3, B4, A4, !points_app, !played_app,
        logged_observations_app, observe_all_app, <- !app_assoc.
      repeat split; try done; try lia.
      * rewrite A5. by apply Permutation_app_head.
      * rewrite A6. by apply Permutation_app_head.
      * by apply Forall_app.
    + exists new1. done.
Qed.

Lemma new_rows_app w w' new :
  history (game w') = history (game w) ++ new -> new_rows w w' = new.
Proof. unfold new_rows. intros ->. by rewrite drop_app_length. Qed.

Lemma points_nonneg (point : Row -> Z) rows :
  (forall r, 0 <= point r <= 1) -> 0 <= points point rows <= Z.of_nat (length rows).
Proof.
  intros H. unfold points.
  induction rows as [|r rs IH]; cbn [fold_right length]; [lia|].
  specialize (H r). lia.
Qed.

End Ledger.

(** X8.  The scoreboard is what the log says.  After any session, from any state,
    each score has grown by exactly the points of the rows logged meanwhile:
    for the player one point per own play on which bluff flag and call flag
    differ, for the opponent one point per called bluff of the player and one
    per bluff of its own.  No score ever goes down. *)
Theorem scores_follow_log (moves : list Move) (w : World) :
  let w' := final (play moves w) in
  score (player (game w')) =
    score (player (game w)) + points player_point (new_rows w w') /\
  score (bot (game w')) =
    score (bot (game w)) + points bot_point (new_rows w w') /\
  score (player (game w)) <= score (player (game w')) /\
  score (bot (game w)) <= score (bot (game w')).
Proof.
  cbv zeta. destruct (play_ledger moves w) as (new & H & _ & Hp & Hb & _).
  rewrite (new_rows_app _ _ _ H), Hp, Hb.
  pose proof (points_nonneg player_point new) as P1.
  pose proof (points_nonneg bot_point new) as P2.
  assert (forall r, 0 <= player_point r <= 1) as Q1.
  { intros r. unfold player_point. destruct (_ && _); lia. }
  assert (forall r, 0 <= bot_point r <= 1) as Q2.
  { intros r. unfold bot_point. destruct (_ && _); lia. }
  specialize (P1 Q1). specialize (P2 Q2). repeat split; lia.
Qed.

(** X9.  Cards are neither made nor lost.  After any session, from any state, the
    hand a side started with is, up to order, the strengths it is logged to
    have played meanwhile together with the hand it still holds. *)
Theorem cards_conserved (moves : list Move) (w : World) :
  let w' := final (play moves w) in
  Permutation (hand (player (game w)))
              (played "player" (new_rows w w') ++ hand (player (game w'))) /\
  Permutation (hand (bot (game w)))
              (played "bot" (new_rows w w') ++ hand (bot (game w'))).
Proof.
  cbv zeta. destruct (play_ledger moves w) as (new & H & _ & _ & _ & Hp & Hb & _).
  by rewrite (new_rows_app _ _ _ H).
Qed.

(** X10.  The belief model is what the log says.  After any session, from any
    state, the belief model is the one the session started with, updated in
    order with one observation per play of the player logged meanwhile
    (played strength, claim, bluff flag); the plays of the opponent teach it
    nothing. *)
Theorem belief_follows_log (moves : list Move) (w : World) :
  let w' := final (play moves w) in
  belief w' = observe_all (logged_observations (new_rows w w')) (belief w) /\
  length (logged_observations (new_rows w w')) = length (rows_of "player" (new_rows w w')).
Proof.
  cbv zeta. destruct (play_ledger moves w) as (new & H & Hb & _).
  rewrite (new_rows_app _ _ _ H). split; [done|].
  unfold logged_observations. by rewrite length_map.
Qed.

(** ** The page *)

Section Page.

Implicit Types (w : World) (actions : list Action).

Lemma flag_sum_bounds (rows : list Row) :
  Forall engine_row rows ->
  0 <= fold_right Z.add 0 (map did_bluff rows) <= Z.of_nat (length rows).
Proof.
  induction 1 as [|r rs [Hr _] _ IH]; cbn [map fold_right length]; [lia|].
  destruct Hr as [-> | ->]; lia.
Qed.

Lemma rows_of_engine_rows who (rows : list Row) :
  Forall engine_row rows -> Forall engine_row (rows_of who rows).
Proof.
  intros H. apply List.Forall_forall. intros r Hr.
  apply List.filter_In in Hr as [Hr _].
  rewrite List.Forall_forall in H. by apply H.
Qed.

Lemma bluff_rate_range (h : list Row) :
  Forall engine_row h -> (0 <= bluff_rate h <= 1)%Q.
Proof.
  intros H. unfold bluff_rate.
  pose proof (flag_sum_bounds _ (rows_of_engine_rows "player" h H)) as Hs.
  destruct (length (rows_of "player" h)) as [|n] eqn:E; cbn [Nat.eqb].
  - split; discriminate.
  - assert (0 < inject_Z (Z.of_nat (S n)))%Q as Hd by (apply inject_Z_pos; lia).
    split.
    + apply Qle_shift_div_l; [done|]. rewrite Qmult_0_l.
      replace 0%Q with (inject_Z 0) by done. rewrite <- Zle_Qle. lia.
    + apply Qle_shift_div_r; [done|]. rewrite Qmult_1_l.
      rewrite <- Zle_Qle. lia.
Qed.

Lemma press_keeps_invariant (a : Action) w :
  action_ok a = true -> page_invariant w ->
  exists w', press a w = Return tt w' /\ page_invariant w'.
Proof.
  intros Hok Hinv. pose proof Hinv as (Hlen & Hflag & Hround & Hhist).
  destruct a as [m|ph bh]; cbn [press].
  - unfold press_play_turn, bind, gets.
    destruct (game_over (game w)) eqn:Eg.
    { by exists w. }
    assert (hand (player (game w)) <> [] /\ hand (bot (game w)) <> []) as [Hp Hb].
    { symmetry in Hflag. unfold termination_condition in Hflag.
      apply orb_false_iff in Hflag as [_ Hflag].
      destruct (hand (player (game w))), (hand (bot (game w))); cbn in *; done. }
    destruct (player_turn_returns (move_claim m) (move_bluff m) (move_rng m) w Hp Hb)
      as (w' & r1 & r2 & H & Hp' & Hb' & Hr & Hh & _ & _ & Hg).
    exists w'. split; [done|]. unfold page_invariant. cbv zeta.
    rewrite Hh, length_app. cbn [length].
    rewrite Hg. fold (termination_condition (game w')).
    repeat split; try lia.
    by destruct (termination_condition (game w')).
  - unfold press_start_new_game, bind, gets.
    destruct (game_over (game w)) eqn:Eg.
    2: { by exists w. }
    eexists. split; [reflexivity|].
    cbn [action_ok] in Hok. apply andb_true_iff in Hok as [Hp Hb].
    apply draw_hand_ok_length in Hp, Hb.
    unfold page_invariant, termination_condition. cbn. rewrite Hp, Hb.
    repeat split.
Qed.

Lemma browse_keeps_invariant actions : forall w,
  forallb action_ok actions = true -> page_invariant w ->
  exists w', browse actions w = Return tt w' /\ page_invariant w'.
Proof.
  induction actions as [|a rest IH]; intros w Hok Hinv.
  - by exists w.
  - cbn [forallb] in Hok. apply andb_true_iff in Hok as [Ha Hrest].
    destruct (press_keeps_invariant a w Ha Hinv) as (w1 & H1 & Hinv1).
    destruct (IH w1 Hrest Hinv1) as (w' & H' & Hinv').
    exists w'. split; [|done]. cbn [browse]. unfold bind. by rewrite H1.
Qed.

End Page.

(** X11.  Through the page nothing is ever raised.  Starting from the state of the
    first page load, whatever buttons are pressed and whatever hands a new
    game draws, every click returns: the disabled "Play Turn" button keeps
    [player_turn] away from empty hands.  Between clicks both hands have the
    same size, the terminal flag is set exactly when the hands are empty, the
    round number is 6 minus the hand size (so at most 6), and the log holds
    two rows per finished round. *)
Theorem page_never_raises (ph bh : list Z) (actions : list Action) :
  draw_hand_ok HAND_SIZE ph = true -> draw_hand_ok HAND_SIZE bh = true ->
  forallb action_ok actions = true ->
  exists w',
    browse actions (startup ph bh) = Return tt w' /\
    page_invariant w' /\
    (game_over (game w') = true <->
     hand (player (game w')) = [] /\ hand (bot (game w')) = []) /\
    1 <= round_num (game w') <= 6 /\
    (length (history (game w')) <= 10)%nat.
Proof.
  intros Hp Hb Hok.
  assert (page_invariant (startup ph bh)) as Hinv.
  { apply draw_hand_ok_length in Hp, Hb.
    unfold page_invariant, termination_condition. cbn. rewrite Hp, Hb. repeat split. }
  destruct (browse_keeps_invariant actions _ Hok Hinv) as (w' & H & Hinv').
  exists w'. split; [done|]. split; [done|].
  destruct Hinv' as (Hlen & Hflag & Hround & Hhist).
  unfold HAND_SIZE in Hround.
  assert (1 <= round_num (game w') <= 6) as Hr.
  { split; [|lia].
    destruct (Z.lt_ge_cases (round_num (game w')) 1) as [Hlt|]; [|done]. lia. }
  split; [|split; [done|lia]].
  rewrite Hflag. unfold termination_condition.
  rewrite orb_true_iff, andb_true_iff, Z.ltb_lt, !Z.eqb_eq. unfold MAX_ROUNDS.
  rewrite <- !length_zero_iff_nil. lia.
Qed.

Lemma page_never_raises_witness :
  exists w',
    browse [PlayTurn (honest "high"); StartNewGame [1; 1; 1; 1; 1] [2; 2; 2; 2; 2]]
           (startup [2; 9; 4; 4; 7] [3; 4; 8; 1; 6]) = Return tt w' /\
    page_invariant w'.
Proof.
  destruct (page_never_raises [2; 9; 4; 4; 7] [3; 4; 8; 1; 6]
              [PlayTurn (honest "high"); StartNewGame [1; 1; 1; 1; 1] [2; 2; 2; 2; 2]]
              eq_refl eq_refl eq_refl) as (w' & H & Hinv & _).
  by exists w'.
Defined.

(** X12.  The live suspicion meter is always well defined.  For the log of any
    session on a new game, the bluff rate is a fraction between 0 and 1, so
    the value handed to the progress bar is the rate itself (the cap at 1.0
    never cuts) and lies in the range the bar accepts, and the percentage of
    the caption lies between 0 and 100. *)
Theorem suspicion_meter_range
    (ph bh : list Z) (ai : BluffBotAI) (moves : list Move) :
  let h := history (game (final (play moves (mkWorld (init_game ph bh) ai)))) in
  (0 <= bluff_rate h <= 1)%Q /\
  (fst (suspicion_meter h) == (if (0 <? length h)%nat then bluff_rate h else 0))%Q /\
  (0 <= fst (suspicion_meter h) <= 1)%Q /\
  0 <= snd (suspicion_meter h) <= 100.
Proof.
  cbv zeta.
  destruct (play_ledger moves (mkWorld (init_game ph bh) ai))
    as (new & H & _ & _ & _ & _ & _ & Hrows).
  cbn [game init_game history app] in H. rewrite H.
  pose proof (bluff_rate_range new Hrows) as [H0 H1].
  assert ((if Qltb (bluff_rate new) 1 then bluff_rate new else 1) == bluff_rate new)%Q as Hcap.
  { destruct (Qltb (bluff_rate new) 1) eqn:E; [reflexivity|].
    apply not_true_iff_false in E. rewrite Qltb_lt in E.
    apply Qnot_lt_le in E. by apply Qle_antisym. }
  split; [done|]. unfold suspicion_meter.
  destruct (0 <? length new)%nat; cbn [fst snd].
  - rewrite Hcap. split; [reflexivity|]. split; [done|].
    assert (0 <= bluff_rate new * 100)%Q as Hnn by (apply Qmult_le_0_compat; done).
    rewrite py_int_floor by done. split.
    + replace 0 with (Qfloor 0) by done. by apply Qfloor_resp_le.
    + rewrite Zle_Qle. eapply Qle_trans; [apply Qfloor_le|].
      assert (inject_Z 100 == 100)%Q by reflexivity. lra.
  - repeat split; (reflexivity || discriminate || lia).
Qed.

(** ** Turns outside a regular game *)

(** X13.  A turn on a state with a card in the player's hand and none in the
    opponent's is not refused cleanly: [ValueError] comes out of [bot_act]
    after the player's half was applied.  The player's card is gone, one row
    is logged, the belief model has learnt the play, but the round was not
    advanced and the terminal flag was not examined. *)
Theorem player_turn_stops_half_way (cl : string) (bluff : bool) (rng : Draws) (w : World) :
  hand (player (game w)) <> [] -> hand (bot (game w)) = [] ->
  exists w1 row,
    player_turn cl bluff rng w = Raise ValueError w1 /\
    history (game w1) = history (game w) ++ [row] /\
    actor row = "player" /\
    length (hand (player (game w))) = S (length (hand (player (game w1)))) /\
    belief w1 = update_stats (belief w) (actual_strength row) cl bluff /\
    round_num (game w1) = round_num (game w) /\
    game_over (game w1) = game_over (game w) /\
    w1 <> w.
Proof.
  intros Hp Hb.
  destruct (player_turn_stops_in_bot_act cl bluff rng w Hp Hb) as (w1 & H1 & H).
  destruct (player_half_returns cl bluff rng w Hp)
    as (card & h' & w1' & _ & Hrem & H1' & Hh & _ & _ & _ & Hr & Hhist & Hg & Hbel).
  rewrite H1 in H1'. injection H1' as <-.
  exists w1. eexists. split; [done|]. split; [exact Hhist|]. cbn [actor actual_strength].
  apply list_remove_length in Hrem. rewrite Hh.
  repeat split; try done.
  intros E. rewrite E in Hh. rewrite Hh in Hrem. lia.
Qed.

Lemma player_turn_stops_half_way_witness :
  exists w1 row,
    player_turn "high" false calm (startup [7] []) = Raise ValueError w1 /\
    history (game w1) = [row] /\ hand (player (game w1)) = [].
Proof.
  destruct (player_turn_stops_half_way "high" false calm (startup [7] []))
    as (w1 & row & H & Hh & _ & Hlen & _); [discriminate|reflexivity|].
  exists w1, row. repeat split; [done..|].
  cbn in Hlen. by destruct (hand (player (game w1))).
Defined.

(** X14.  A finished game stays as it is.  Once a new game has seen five turns,
    both hands are empty and every further call of [player_turn] raises
    [ValueError] and changes nothing, so a longer session ends in the same
    state as its first five turns. *)
Theorem finished_game_refuses
    (ph bh : list Z) (ai : BluffBotAI) (moves : list Move) :
  draw_hand_ok HAND_SIZE ph = true -> draw_hand_ok HAND_SIZE bh = true ->
  (5 <= length moves)%nat ->
  let w0 := mkWorld (init_game ph bh) ai in
  let w := final (play moves w0) in
  w = final (play (take 5 moves) w0) /\
  (forall cl bluff rng, player_turn cl bluff rng w = Raise ValueError w) /\
  (forall more, final (play more w) = w).
Proof.
  intros Hp Hb Hlen w0 w. apply draw_hand_ok_length in Hp, Hb.
  change (Z.to_nat HAND_SIZE) with 5%nat in Hp, Hb.
  assert (forall ms, (5 <= length ms)%nat ->
            hand (player (game (final (play ms w0)))) = []) as Hempty.
  { intros ms Hms.
    destruct (play_run ms w0 5%nat Hp Hb) as (_ & Hl & _).
    cbv zeta in Hl. rewrite Nat.min_r in Hl by done.
    by apply nil_length_inv in Hl. }
  assert (forall v, hand (player (game v)) = [] -> forall more, final (play more v) = v)
    as Hstay.
  { intros v Hv [|m ms]; [done|].
    by rewrite (play_cons_raised m ms v _ _ (player_turn_raises _ _ _ v Hv)). }
  split; [|split].
  - unfold w. rewrite <- (take_drop 5 moves) at 1. rewrite play_app.
    destruct (play_run (take 5 moves) w0 5%nat Hp Hb) as (Hret & _).
    cbv zeta in Hret. rewrite length_take, Nat.min_l in Hret by done.
    destruct (play (take 5 moves) w0) as [[] v|e v] eqn:E; [|done].
    cbn [final]. apply Hstay.
    specialize (Hempty (take 5 moves)). rewrite E in Hempty. apply Hempty.
    rewrite length_take. lia.
  - intros cl bluff rng. apply player_turn_raises. by apply Hempty.
  - apply Hstay. by apply Hempty.
Qed.

Lemma finished_game_refuses_witness :
  let w := final (play five_honest
                    (mkWorld (init_game [2; 9; 4; 4; 7] [3; 4; 8; 1; 6]) new_BluffBotAI)) in
  player_turn "low" true calm w = Raise ValueError w.
Proof.
  destruct (finished_game_refuses [2; 9; 4; 4; 7] [3; 4; 8; 1; 6] new_BluffBotAI
              five_honest eq_refl eq_refl) as (_ & H & _); [vm_compute; lia|].
  apply H.
Defined.

(** ** What is learnt stays *)

Section Persistence.

Implicit Types (ai : BluffBotAI) (w : World) (key : string * string).

Lemma update_stats_grows ai s c d key :
  fst (stat ai key) <= fst (stat (update_stats ai s c d) key) /\
  snd (stat ai key) <= snd (stat (update_stats ai s c d) key).
Proof.
  unfold stat. rewrite update_stats_lookup.
  destruct (decide (context_key s c = key)); [|lia].
  cbn [default]. simpl. destruct d; cbn; lia.
Qed.

Lemma observe_all_grows (obs : list observation) : forall ai key,
  fst (stat ai key) <= fst (stat (observe_all obs ai) key) /\
  snd (stat ai key) <= snd (stat (observe_all obs ai) key).
Proof.
  induction obs as [|[[s c] d] obs IH]; intros ai key; [cbn; lia|].
  cbn [observe_all fold_left observe].
  destruct (update_stats_grows ai s c d key).
  destruct (IH (update_stats ai s c d) key). unfold observe_all in *. lia.
Qed.

End Persistence.

(** X15.  Nothing the belief model has counted is ever taken back.  Over any
    sequence of clicks on the page, from any state, also across new games
    and refused turns, the bluff count and the total count of every context
    key only grow: "Start New Game" replaces the game and keeps the belief
    model. *)
Theorem stats_never_reset (actions : list Action) (w : World) (key : string * string) :
  let w' := final (browse actions w) in
  fst (stat (belief w) key) <= fst (stat (belief w') key) /\
  snd (stat (belief w) key) <= snd (stat (belief w') key).
Proof.
  cbv zeta. revert w. induction actions as [|a rest IH]; intros w; [cbn; lia|].
  assert (fst (stat (belief w) key) <= fst (stat (belief (final (press a w))) key) /\
          snd (stat (belief w) key) <= snd (stat (belief (final (press a w))) key)) as Hstep.
  { destruct a as [m|ph bh]; cbn [press].
    - unfold press_play_turn, bind, gets.
      destruct (game_over (game w)); [cbn; lia|].
      destruct (player_turn_ledger (move_claim m) (move_bluff m) (move_rng m) w)
        as (new & _ & -> & _).
      apply observe_all_grows.
    - unfold press_start_new_game, bind, gets.
      destruct (game_over (game w)); cbn; lia. }
  cbn [browse]. unfold bind.
  destruct (press a w) as [[] w1|e w1]; cbn [final] in *; [|done].
  specialize (IH w1). lia.
Qed.
